(** * rendertoy: the [rendering._core] module

    A shallow embedding of [src/rendering/_core.py]: the host-side
    vector/matrix library built on NumPy structured values, the OpenCL
    source generator with its dispatchers, and the buffer helpers
    [clear] and [mapped].

    Conventions of the embedding.
    - A Python exception is a value of [exn]; a call that may raise
      returns a [result].
    - Component values are kept in a type parameter for the container
      functions ([make_float2], [to_array], ...), which narrow what they
      store to a 32-bit float ([narrow]); they are real numbers for the
      arithmetic ones ([dot], [normalize], [matmul]), where arithmetic
      is exact and narrowing is the identity.
    - Process-wide state ([__code__], the device memory, the command
      queue) is threaded explicitly; an exception leaves the state as it
      was when the exception was raised. *)

From Stdlib Require Import Reals Lra ZArith Strings.Byte.
From Stdlib Require Import RNsatz.
From stdpp Require Import base list strings gmap.

(** ** Exceptions and results *)

Inductive exn :=
  | AssertionError (msg : string)
  | AttributeError (msg : string)
  | ValueError
  | KeyError
  | Exception (msg : string)
  | CLError (msg : string)
  | Unmodelled (what : string).

Inductive result (T : Type) :=
  | OK (x : T)
  | Raise (e : exn).
Arguments OK {T} x.
Arguments Raise {T} e.

#[global] Instance result_ret : MRet result := @OK.
#[global] Instance result_bind : MBind result := fun _ _ f m =>
  match m with OK x => f x | Raise e => Raise e end.
#[global] Instance result_fmap : FMap result := fun _ _ f m =>
  match m with OK x => OK (f x) | Raise e => Raise e end.

(** ** NumPy values

    [float2], [float3], [float4] and [float4x4] are the structured
    dtypes obtained from [cltools.get_or_register_dtype]; each element is
    a row of 32-bit float lanes.  [float3] is stored on four lanes and
    [float4x4] is OpenCL's [float16]. *)

Inductive np_dtype := float32 | float2 | float3 | float4 | float4x4.

#[global] Instance np_dtype_eq_dec : EqDecision np_dtype.
Proof. solve_decision. Defined.

Definition itemlanes (d : np_dtype) : nat :=
  match d with
  | float32 => 1
  | float2 => 2
  | float3 => 4
  | float4 => 4
  | float4x4 => 16
  end.

(** [chunks k l] cuts [l] into consecutive rows of [k] lanes. *)
Fixpoint chunks_fuel {A} (fuel k : nat) (l : list A) : list (list A) :=
  match fuel, l with
  | S fuel', _ :: _ => take k l :: chunks_fuel fuel' k (drop k l)
  | _, _ => []
  end.

Definition chunks {A} (k : nat) (l : list A) : list (list A) :=
  chunks_fuel (length l) k l.

(** A lane holds a 32-bit float: storing a component narrows it to the
    nearest one.  [narrow] is that conversion on the component type. *)
Class Float32 (A : Type) := narrow : A → A.


Section Arrays.
Context {A : Type} {F32 : Float32 A}.
Variable zero : A.

(** An [np.ndarray]: its dtype, its shape and its lanes in row-major
    order.  A well-formed array has
    [length lanes = product shape * itemlanes dtype]. *)
Record ndarray := Ndarray {
  dtype : np_dtype;
  shape : list nat;
  lanes : list A;
}.

(** What the constructors return: an array, or the plain Python tuple
    that [.item()] gives for one structured element. *)
Inductive value :=
  | Nd (a : ndarray)
  | Tuple (t : list A).

(** The [*args] of the constructors: component values, or the single
    [np.ndarray] recognised by
    [len(args) == 1 and isinstance(args[0], np.ndarray)]. *)
Inductive args :=
  | Components (xs : list A)
  | Array (a : ndarray).

(** [np.array(t, dtype=d)] for a tuple [t] of numbers and a structured
    dtype [d]: the tuple is one element, so the result is 0-d, and each
    number is narrowed to the 32-bit lane that stores it; a tuple of the
    wrong length cannot be assigned to the structure. *)
Definition np_array (t : list A) (d : np_dtype) : result ndarray :=
  if decide (length t = itemlanes d)
  then OK (Ndarray d [] (narrow <$> t))
  else Raise ValueError.

(** [a.ravel().view(d).item()]: the flattened lanes are regrouped in
    elements of [d]; [.item()] wants exactly one element and returns it
    as a tuple. *)
Definition ravel_view_item (a : ndarray) (d : np_dtype) : result value :=
  if decide (length (lanes a) = itemlanes d)
  then OK (Tuple (lanes a))
  else Raise ValueError.

Definition make_float2 (a : args) : result value :=
  match a with
  | Array a0 => ravel_view_item a0 float2
  | Components xs => Nd <$> np_array xs float2
  end.

Definition make_float3 (a : args) : result ndarray :=
  let xs := match a with
            | Array a0 => lanes a0 (* args[0].ravel().view(np.float32) *)
            | Components xs => xs
            end in
  np_array (xs ++ [zero]) float3.

Definition make_float4 (a : args) : result value :=
  match a with
  | Array a0 => ravel_view_item a0 float4
  | Components xs => Nd <$> np_array xs float4
  end.

Definition make_float4x4 (a : args) : result value :=
  match a with
  | Array a0 => ravel_view_item a0 float4x4
  | Components xs => Nd <$> np_array xs float4x4
  end.

(** [v.view(np.float32).reshape( *v_shape, 4)[..., 0:3]] on lanes. *)
Definition drop_padding (l : list A) : list A :=
  concat (take 3 <$> chunks 4 l).

Definition to_array (v : ndarray) : ndarray :=
  let v_shape := shape v in
  (* a 0-d [v] is first expanded to shape (1,) *)
  let v' := if decide (shape v = []) then Ndarray (dtype v) [1] (lanes v)
            else v in
  match dtype v' with
  | float2 => Ndarray float32 (v_shape ++ [2]) (lanes v')
  | float3 => Ndarray float32 (v_shape ++ [3]) (drop_padding (lanes v'))
  | float4 => Ndarray float32 (v_shape ++ [4]) (lanes v')
  | float4x4 => Ndarray float32 (v_shape ++ [4; 4]) (lanes v')
  | float32 => v'
  end.

(** [v['x']], [v['y']], ...: lane [i] of every element. *)
Definition field (i : nat) (v : ndarray) : list A :=
  (fun row => nth i row zero) <$> chunks (itemlanes (dtype v)) (lanes v).

End Arrays.

Arguments ndarray A : clear implicits.
Arguments value A : clear implicits.
Arguments args A : clear implicits.

(** ** Vector and matrix algebra over exact reals *)

(** The arithmetic is carried out in exact reals; there a lane holds a
    component unchanged. *)
#[global] Instance exact_reals : Float32 R := fun x => x.

Section Algebra.
Open Scope R_scope.

Abbreviation ndarrayR := (ndarray R).

(** Element-wise [*] and [+] of two arrays of equal shape, on lanes. *)
Definition np_mul (u v : list R) : list R := zip_with Rmult u v.
Definition np_add (u v : list R) : list R := zip_with Rplus u v.

(** [.item()] of a plain array: exactly one element, returned as a
    Python float. *)
Definition item (l : list R) : result R :=
  match l with
  | [x] => OK x
  | _ => Raise ValueError
  end.

Definition dot (v1 v2 : ndarrayR) : result R :=
  if negb (bool_decide (dtype v1 = dtype v2)) then
    Raise (AssertionError
      "Can not apply dot product between different vector types")
  else if negb (bool_decide (shape v1 = shape v2)) then
    Raise (AssertionError
      "Can not apply dot product between different vector types")
  else
    let x1 := field 0 0%nat v1 in let x2 := field 0 0%nat v2 in
    let y1 := field 0 1%nat v1 in let y2 := field 0 1%nat v2 in
    let z1 := field 0 2%nat v1 in let z2 := field 0 2%nat v2 in
    let w1 := field 0 3%nat v1 in let w2 := field 0 3%nat v2 in
    match dtype v1 with
    | float2 => item (np_add (np_mul x1 x2) (np_mul y1 y2))
    | float3 =>
        item (np_add (np_add (np_mul x1 x2) (np_mul y1 y2)) (np_mul z1 z2))
    | float4 =>
        item (np_add (np_add (np_add (np_mul x1 x2) (np_mul y1 y2))
                             (np_mul z1 z2)) (np_mul w1 w2))
    | _ => Raise (Exception "Not valid dtype")
    end.

(** [a / l] for a plain array [a] and a scalar [l]. *)
Definition np_div (a : ndarrayR) (l : R) : ndarrayR :=
  Ndarray (dtype a) (shape a) ((fun x => x / l) <$> lanes a).

(** [a.view(d)] for a plain float array [a] and a structured dtype [d]:
    the last axis is regrouped in elements of [d]. *)
Definition view (a : ndarrayR) (d : np_dtype) : result ndarrayR :=
  match last (shape a) with
  | Some n =>
      if decide (n `mod` itemlanes d = 0)%nat
      then OK (Ndarray d (removelast (shape a) ++ [n `div` itemlanes d]%nat)
                       (lanes a))
      else Raise ValueError
  | None => Raise ValueError
  end.

Definition normalize (v : ndarrayR) : result ndarrayR :=
  let v_dtype := dtype v in
  d ← dot v v;
  let l := sqrt d in
  let v := np_div (to_array v) l in
  if decide (v_dtype = float3) then
    make_float3 0 (Array v)
  else
    view (np_div v l) v_dtype.

(** Row [r] (of [k] lanes) times the [k] x [n] matrix whose lanes are
    [m], in row-major order. *)
Definition vecmat (k n : nat) (r m : list R) : list R :=
  (fun j => foldr Rplus 0
              (zip_with Rmult r ((fun i => nth (i * n + j) m 0) <$> seq 0 k)))
  <$> seq 0 n.

(** [a @ b] for a right operand of two dimensions: every row of [a] is
    multiplied by [b].  A stacked right operand (three dimensions or
    more) makes NumPy broadcast; that case is left out. *)
Definition np_matmul (a b : ndarrayR) : result ndarrayR :=
  match shape b with
  | [k; n] =>
      match last (shape a) with
      | Some k' =>
          if decide (k' = k)
          then OK (Ndarray float32 (removelast (shape a) ++ [n])
                     (concat ((fun r => vecmat k n r (lanes b))
                              <$> chunks k (lanes a))))
          else Raise ValueError
      | None => Raise ValueError
      end
  | _ => Raise (Unmodelled "matmul with a stacked right operand")
  end.

Definition matmul (a b : ndarrayR) : result (value R) :=
  if negb (bool_decide (dtype a = float4) || bool_decide (dtype a = float4x4))
  then Raise (AssertionError
                "First vector must be a float4 or a matrix float4x4")
  else if negb (bool_decide (dtype b = float4x4))
  then Raise (AssertionError "Second argument must be a matrix")
  else
    let a_is_vec := bool_decide (dtype a = float4) in
    let a := to_array a in
    let b := to_array b in
    c ← np_matmul a b;
    if a_is_vec then make_float4 (Array c) else make_float4x4 (Array c).

(** [x, y, z = to_array(args[0])]: unpacking iterates over the first
    axis, which must have three entries; they are numbers only for a
    one-dimensional array. *)
Definition unpack3 (a : ndarrayR) : result (R * R * R) :=
  match shape a, lanes a with
  | [3%nat], [x; y; z] => OK (x, y, z)
  | _, _ => Raise ValueError
  end.

Definition translate (a : args R) : result (value R) :=
  xyz ← match a with
        | Array v => unpack3 (to_array v)
        | Components [_] =>
            Raise (AttributeError "'float' object has no attribute 'shape'")
        | Components [x; y; z] => OK (x, y, z)
        | Components _ => Raise ValueError
        end;
  let '(x, y, z) := xyz in
  make_float4x4 (Components
    [1; 0; 0; 0;
     0; 1; 0; 0;
     0; 0; 1; 0;
     x; y; z; 1]).

Definition identity : result (value R) :=
  make_float4x4 (Components
    [1; 0; 0; 0;
     0; 1; 0; 0;
     0; 0; 1; 0;
     0; 0; 0; 1]).

End Algebra.

(** ** State and exceptions

    A computation over a state [S] that returns a [T] or raises; the
    state reached is returned in both cases. *)

Definition M (S T : Type) : Type := S → result T * S.

Definition ret {S T} (x : T) : M S T := fun st => (OK x, st).
Definition raise {S T} (e : exn) : M S T := fun st => (Raise e, st).
Definition bind {S T U} (m : M S T) (k : T → M S U) : M S U := fun st =>
  match m st with
  | (OK x, st') => k x st'
  | (Raise e, st') => (Raise e, st')
  end.
Definition lift {S T} (r : result T) : M S T := fun st => (r, st).
Definition get {S} : M S S := fun st => (OK st, st).

Notation "'let*' x := m 'in' k" := (bind m (fun x => k))
  (at level 10, x pattern, m at level 100, k at level 200).

(** ** Kernel source generation and dispatch *)

Module Kernel.

Definition nl : string := String (Ascii.ascii_of_nat 10) "".

(** The initial value of [__code__]. *)
Definition prelude : string :=
  nl +:+ "#define float4x4 float16" +:+ nl +:+
  nl +:+ "float4x4 transpose( float4x4 m )" +:+
  nl +:+ "{" +:+
  nl +:+ "    float4x4 t;" +:+
  nl +:+ "    // transpose" +:+
  nl +:+ "    t.even = m.lo;" +:+
  nl +:+ "    t.odd = m.hi;" +:+
  nl +:+ "    m.even = t.lo;" +:+
  nl +:+ "    m.odd = t.hi;" +:+
  nl +:+
  nl +:+ "    return m;" +:+
  nl +:+ "}" +:+
  nl +:+
  nl +:+ "float4 mul(float4 v, float4x4 m) {" +:+
  nl +:+ "    return (float4)(dot(v, m.even.even), dot(v, m.odd.even), dot(v, m.even.odd), dot(v, m.odd.odd));    " +:+
  nl +:+ "}" +:+
  nl +:+ nl.

Section Declarations.

(** Python objects other than [None], strings and lists: dtypes and
    whatever else a caller writes as an annotation, host values passed
    to a kernel. *)
Context {pyobj : Type}.

#[warnings="-register-all"] Inductive annotation :=
  | Empty                        (* inspect.Signature.empty *)
  | ANone                        (* None *)
  | AStr (s : string)
  | AList (l : list annotation)
  | AObj (o : pyobj).

(** [cltools.dtype_to_ctype], the device type spelling of a dtype; it
    raises for what it cannot map. *)
Variable dtype_to_ctype : annotation → result string.

(** [cl.Program(__ctx__, source).build()] succeeds on the sources the
    device compiler accepts. *)
Variable build_ok : string → bool.

(** [inspect.Parameter] *)
Record Param := {
  name : string;
  p_annotation : annotation;
}.

(** A host function as seen through [inspect]. *)
Record function := {
  __name__ : string;
  parameters : list Param;
  return_annotation : annotation;
  getdoc : option string;
}.

Definition is_empty (a : annotation) : bool :=
  match a with Empty => true | _ => false end.

Definition _get_signature (f : function)
  : result (list (string * Param) * annotation) :=
  if forallb (fun v => negb (is_empty (p_annotation v))) (parameters f)
  then OK ((fun v => (name v, v)) <$> parameters f, return_annotation f)
  else Raise (AssertionError
    "All arguments needs to be annotated with a type descriptor").

Definition _get_annotation_as_cltype
    (a : annotation) (assert_no_pointer : bool) : result string :=
  match a with
  | ANone => OK "void"
  | _ =>
    unwrapped ← match a with
                | AList [a0] => OK (true, a0)
                | AList _ => Raise (AssertionError
    "parameters annotated with list should refer to a pointer to a single type, e.g. [int] is considered a int*.")
                | _ => OK (false, a)
                end;
    let '(is_pointer, a) := unwrapped in
    match a with
    | AStr s => OK s   (* object types *)
    | _ =>
      if assert_no_pointer && is_pointer
      then Raise (AssertionError
             "Can not use pointers in kernel auxiliary functions")
      else
        c ← dtype_to_ctype a;
        OK ((if is_pointer then "__global " else "") +:+ c +:+
            (if is_pointer then "*" else ""))
    end
  end.

(** [{inspect.getdoc(f)}] inside an f-string. *)
Definition doc_text (f : function) : string :=
  match getdoc f with Some d => d | None => "None" end.

(** [', '.join(<type> + " " + v.name for k, v in s)] *)
Definition render_parameters (s : list (string * Param))
    (assert_no_pointer : bool) : result string :=
  ps ← mapM (fun kv : string * Param =>
               t ← _get_annotation_as_cltype (p_annotation kv.2)
                     assert_no_pointer;
               OK (t +:+ " " +:+ name kv.2)) s;
  OK (String.concat ", " ps).

(** A compiled [cl.Program], identified by the source it was built
    from. *)
Record Program := { source : string }.

(** A host-side [cla.Array]: its device buffer and what [get()] reads
    back. *)
Record cla_Array := {
  data : nat;
  host_copy : pyobj;
}.

(** The arguments a caller gives to a dispatcher... *)
Inductive host_arg :=
  | ArrayArg (a : cla_Array)
  | IntArg (n : Z)
  | OtherArg (o : pyobj).

(** ...and what the kernel receives. *)
Inductive kernel_arg :=
  | KBuffer (h : nat)
  | KHost (o : pyobj)
  | KInt32 (n : Z).     (* np.int32(n), not evaluated: n is kept as given *)

(** One call [kernel(__queue__, global_size, local_size, *args)]. *)
Record Enqueued := {
  e_program : Program;
  e_kernel : string;
  e_global_size : list Z;
  e_local_size : option (list Z);
  e_args : list kernel_arg;
}.

(** The process: [__code__], the [program] variable of each
    [kernel_main] closure (absent while it is [None]), the programs
    built so far with the closure that built them, and the kernels
    enqueued on [__queue__]. *)
Record State := {
  __code__ : string;
  programs : gmap nat Program;
  next_closure : nat;
  built : list (nat * Program);
  queue : list Enqueued;
}.

Definition init : State :=
  {| __code__ := prelude; programs := ∅; next_closure := 0;
     built := []; queue := [] |}.

Definition append_code (text : string) : M State unit := fun st =>
  (OK tt, {| __code__ := __code__ st +:+ text; programs := programs st;
             next_closure := next_closure st; built := built st;
             queue := queue st |}).

(** The callable that [kernel_function] returns. *)
Definition wrapper {T} (call_args : list pyobj) : result T :=
  Raise (Exception "Can not call to this function from host.").

Definition kernel_function {T} (f : function)
  : M State (list pyobj → result T) :=
  let* (s, return_annotation) := lift (_get_signature f) in
  let name := __name__ f in
  let* rt := lift (_get_annotation_as_cltype return_annotation true) in
  let* ps := lift (render_parameters s true) in
  let* _ := append_code
    (nl +:+ rt +:+ " " +:+ name +:+ "(" +:+ ps +:+ ") {" +:+ nl +:+
     doc_text f +:+ nl +:+ "}" +:+ nl) in
  ret wrapper.

(** An instance of the class [Dispatcher] local to [kernel_main]: the
    variables it closes over. *)
Record Dispatcher := {
  d_name : string;
  d_s : list (string * Param);
  d_program : nat;
}.

(** [program = None] in a fresh closure. *)
Definition new_closure : M State nat := fun st =>
  (OK (next_closure st),
   {| __code__ := __code__ st;
      programs := delete (next_closure st) (programs st);
      next_closure := S (next_closure st); built := built st;
      queue := queue st |}).

Definition kernel_main (f : function) : M State Dispatcher :=
  let* (s, return_annotation) := lift (_get_signature f) in
  if negb (is_empty return_annotation) then
    raise (AssertionError "Kernel main function must return void")
  else
    let name := __name__ f in
    let* ps := lift (render_parameters s false) in
    let* _ := append_code
      (nl +:+ "__kernel void " +:+ name +:+ "(" +:+ ps +:+ ") {" +:+ nl +:+
       "int thread_id = get_global_id(0);" +:+ nl +:+
       doc_text f +:+ nl +:+ "}" +:+ nl +:+ "    ") in
    let* c := new_closure in
    ret {| d_name := name; d_s := s; d_program := c |}.

(** What a dispatcher is indexed by. *)
Inductive index :=
  | Int (n : Z)
  | List (l : list Z)
  | Tuple (l : list Z).

Definition math_prod (l : list Z) : Z := foldl Z.mul 1%Z l.

(** The function [dispatch_call] returned by [__getitem__]: the
    dispatcher and the resolved [num_threads]. *)
Record dispatch_closure := {
  dc_self : Dispatcher;
  num_threads : Z;
}.

Definition __getitem__ (self : Dispatcher) (i : index) : dispatch_closure :=
  {| dc_self := self;
     num_threads := match i with
                    | Int n => n
                    | List l | Tuple l => math_prod l
                    end |}.

Definition is_list (a : annotation) : bool :=
  match a with AList _ => true | _ => false end.

Definition resolve_arg (a : host_arg) (ann : annotation) : kernel_arg :=
  match a with
  | ArrayArg arr =>
      if is_list ann then KBuffer (data arr)   (* a pointer: the buffer *)
      else KHost (host_copy arr)               (* a value transfer *)
  | IntArg n => KInt32 n
  | OtherArg o => KHost o
  end.

(** [cl.Program(__ctx__, __code__).build()], stored in the closure
    variable [program] of closure [c]. *)
Definition build_program (c : nat) : M State Program := fun st =>
  if build_ok (__code__ st) then
    let p := {| source := __code__ st |} in
    (OK p, {| __code__ := __code__ st;
              programs := <[c := p]> (programs st);
              next_closure := next_closure st;
              built := built st ++ [(c, p)];
              queue := queue st |})
  else (Raise (CLError "clBuildProgram failed"), st).

Definition enqueue (e : Enqueued) : M State unit := fun st =>
  (OK tt, {| __code__ := __code__ st; programs := programs st;
             next_closure := next_closure st; built := built st;
             queue := queue st ++ [e] |}).

(** [kernel(__queue__, (num_threads,), None,
            *[resolve_arg(a, v.annotation) for a, (k,v) in zip(args,s)])] *)
Definition kernel_call (self : Dispatcher) (num_threads : Z)
    (program : Program) (call_args : list host_arg) : Enqueued :=
  {| e_program := program;
     e_kernel := d_name self;
     e_global_size := [num_threads];
     e_local_size := None;
     e_args := (fun '(a, (k, v)) => resolve_arg a (p_annotation v))
               <$> zip call_args (d_s self) |}.

(** The build comes first and its failure is the failure of the call.
    The launch that follows is taken to be one the runtime queues: a
    launch it refuses (an argument missing or of the wrong type, a
    thread count that is no size) raises at that point, after the
    program was stored, and is not part of this definition. *)
Definition dispatch_call (dc : dispatch_closure) (call_args : list host_arg)
  : M State unit :=
  let self := dc_self dc in
  let* st := get in
  let* program := match programs st !! d_program self with
                  | None => build_program (d_program self)
                  | Some p => ret p
                  end in
  enqueue (kernel_call self (num_threads dc) program call_args).

(** *** A session: declarations and dispatcher calls in any order *)

Inductive command :=
  | DeclareFunction (f : function)
  | DeclareKernel (f : function)
  | Call (d : nat) (i : index) (call_args : list host_arg).

(** The dispatchers returned so far are kept in creation order; [Call d]
    indexes and calls dispatcher number [d].  An exception ends the
    command, not the session. *)
Definition step (c : command) (s : State * list Dispatcher)
  : State * list Dispatcher :=
  let '(st, ds) := s in
  match c with
  | DeclareFunction f => ((kernel_function (T := unit) f st).2, ds)
  | DeclareKernel f =>
      match kernel_main f st with
      | (OK d, st') => (st', ds ++ [d])
      | (Raise _, st') => (st', ds)
      end
  | Call d i call_args =>
      match ds !! d with
      | Some self => ((dispatch_call (__getitem__ self i) call_args st).2, ds)
      | None => (st, ds)
      end
  end.

Definition run (cs : list command) : State * list Dispatcher :=
  foldl (fun s c => step c s) (init, []) cs.

(** How many programs closure [c] has built. *)
Definition builds_of (c : nat) (st : State) : nat :=
  length (filter (fun b => b.1 = c) (built st)).

(** What holds of every state of a session: a closure whose [program]
    is still [None] has built nothing, a closure whose [program] is set
    has built exactly that program, closures not created yet are
    untouched, and the dispatchers handed out belong to closures that
    were created. *)
Definition session_inv (s : State * list Dispatcher) : Prop :=
  (∀ c, programs s.1 !! c = None → builds_of c s.1 = 0)
  ∧ (∀ c p, programs s.1 !! c = Some p →
            builds_of c s.1 = 1 ∧ (c, p) ∈ built s.1)
  ∧ (∀ c, next_closure s.1 ≤ c → programs s.1 !! c = None)
  ∧ (∀ d, d ∈ s.2 → d_program d < next_closure s.1).

(** "One program per process": no session builds a second program. *)
Definition built_once_per_process : Prop :=
  ∀ cs, length (built (run cs).1) ≤ 1.

End Declarations.

Arguments annotation pyobj : clear implicits.
Arguments Param pyobj : clear implicits.
Arguments function pyobj : clear implicits.
Arguments cla_Array pyobj : clear implicits.
Arguments host_arg pyobj : clear implicits.
Arguments kernel_arg pyobj : clear implicits.
Arguments Enqueued pyobj : clear implicits.
Arguments State pyobj : clear implicits.
Arguments Dispatcher pyobj : clear implicits.
Arguments dispatch_closure pyobj : clear implicits.
Arguments command pyobj : clear implicits.
Arguments init pyobj : clear implicits.

(** *** The registered dtypes as annotations

    The dtypes that the module registers, with the two NumPy scalar
    types it uses, and the spelling [cltools.dtype_to_ctype] gives to
    each ([float4x4] is registered as [float16], [RGBA] as [uchar4]). *)
Inductive host_dtype :=
  | t_float32 | t_int32
  | dt_float2 | dt_float3 | dt_float4
  | dt_int2 | dt_int3 | dt_int4
  | dt_uint2 | dt_uint3 | dt_uint4
  | dt_float4x4 | dt_RGBA.

Definition ctype_name (d : host_dtype) : string :=
  match d with
  | t_float32 => "float" | t_int32 => "int"
  | dt_float2 => "float2" | dt_float3 => "float3" | dt_float4 => "float4"
  | dt_int2 => "int2" | dt_int3 => "int3" | dt_int4 => "int4"
  | dt_uint2 => "uint2" | dt_uint3 => "uint3" | dt_uint4 => "uint4"
  | dt_float4x4 => "float16" | dt_RGBA => "uchar4"
  end.

Definition registered_ctype (a : annotation host_dtype) : result string :=
  match a with
  | AObj d => OK (ctype_name d)
  | _ => Raise ValueError
  end.

(** Two kernel entry points and an auxiliary function, as a caller
    would declare them. *)
Definition fill_kernel : function host_dtype :=
  {| __name__ := "fill";
     parameters := [ {| name := "out"; p_annotation := AList [AObj t_float32] |};
                     {| name := "v"; p_annotation := AObj t_float32 |} ];
     return_annotation := Empty;
     getdoc := Some "out[thread_id] = v;" |}.

Definition negate_kernel : function host_dtype :=
  {| __name__ := "negate";
     parameters := [ {| name := "out"; p_annotation := AList [AObj dt_float4] |} ];
     return_annotation := Empty;
     getdoc := Some "out[thread_id] = -out[thread_id];" |}.

Definition void_kernel : function host_dtype :=
  {| __name__ := "nothing";
     parameters := [];
     return_annotation := ANone;
     getdoc := Some "" |}.

(** The process after [fill = kernel_main(fill)], and after one call
    [fill[12](...)] with a device compiler that accepts every source. *)
Definition fill_declared : result (Dispatcher host_dtype) * State host_dtype :=
  kernel_main registered_ctype fill_kernel (init host_dtype).

Definition fill_dispatcher : Dispatcher host_dtype :=
  {| d_name := "fill";
     d_s := (fun v => (name v, v)) <$> parameters fill_kernel;
     d_program := 0 |}.

Definition fill_called : result unit * State host_dtype :=
  dispatch_call (fun _ => true) (__getitem__ fill_dispatcher (Int 12)) []
    fill_declared.2.

(** A kernel with a buffer and a whole number, and the call
    [iota[3, 4](out, 5)] on an array [out] whose buffer has handle 7. *)
Definition iota_kernel : function host_dtype :=
  {| __name__ := "iota";
     parameters := [ {| name := "out"; p_annotation := AList [AObj t_int32] |};
                     {| name := "start"; p_annotation := AObj t_int32 |} ];
     return_annotation := Empty;
     getdoc := Some "out[thread_id] = start + thread_id;" |}.

Definition iota_declared : result (Dispatcher host_dtype) * State host_dtype :=
  kernel_main registered_ctype iota_kernel (init host_dtype).

Definition iota_dispatcher : Dispatcher host_dtype :=
  {| d_name := "iota";
     d_s := (fun v => (name v, v)) <$> parameters iota_kernel;
     d_program := 0 |}.

Definition iota_args : list (host_arg host_dtype) :=
  [ArrayArg {| data := 7; host_copy := t_int32 |}; IntArg 5].

Definition iota_called : result unit * State host_dtype :=
  dispatch_call (fun _ => true) (__getitem__ iota_dispatcher (Tuple [3; 4]%Z))
    iota_args iota_declared.2.

Definition square_function : function host_dtype :=
  {| __name__ := "square";
     parameters := [ {| name := "x"; p_annotation := AObj t_float32 |} ];
     return_annotation := AObj t_float32;
     getdoc := Some "return x * x;" |}.

End Kernel.

(** ** Device memory: [clear] and [mapped] *)

Module Memory.

(** [cl.channel_order] and [cl.channel_type]; the last constructors stand
    for the members that the tables of the module do not list. *)
Inductive channel_order :=
  | ORDER_R | ORDER_RG | ORDER_RGB | ORDER_RGBA | ORDER_BGRA
  | ORDER_A | ORDER_LUMINANCE.

Inductive channel_type :=
  | FLOAT | SIGNED_INT32 | SIGNED_INT8 | UNSIGNED_INT32 | UNSIGNED_INT8
  | UNORM_INT8
  | HALF_FLOAT | SNORM_INT8 | UNORM_INT16.

(** [cl.mem_object_type] with the values of the OpenCL headers, which
    [<] compares. *)
Inductive mem_object_type :=
  | BUFFER | IMAGE2D | IMAGE3D | IMAGE2D_ARRAY | IMAGE1D.

Definition mem_object_code (t : mem_object_type) : Z :=
  match t with
  | BUFFER => 0x10F0
  | IMAGE2D => 0x10F1
  | IMAGE3D => 0x10F2
  | IMAGE2D_ARRAY => 0x10F3
  | IMAGE1D => 0x10F4
  end%Z.

(** The element type of a host view. *)
Inductive elt_dtype :=
  | np_float32 | np_int32 | np_int8 | np_uint32 | np_uint8
  | np_struct (itemsize : nat).

Definition itemsize (d : elt_dtype) : nat :=
  match d with
  | np_float32 | np_int32 | np_uint32 => 4
  | np_int8 | np_uint8 => 1
  | np_struct n => n
  end.

Definition __CHANNEL_TYPE_TO_DTYPE__ (t : channel_type) : result elt_dtype :=
  match t with
  | FLOAT => OK np_float32
  | SIGNED_INT32 => OK np_int32
  | SIGNED_INT8 => OK np_int8
  | UNSIGNED_INT32 => OK np_uint32
  | UNSIGNED_INT8 => OK np_uint8
  | UNORM_INT8 => OK np_int8
  | _ => Raise KeyError
  end.

Definition __CHANNEL_ORDER_TO_COMPONENTS__ (o : channel_order) : result nat :=
  match o with
  | ORDER_BGRA => OK 4
  | ORDER_RGBA => OK 4
  | ORDER_RGB => OK 3
  | ORDER_RG => OK 2
  | ORDER_R => OK 1
  | _ => Raise KeyError
  end.

(** [cl.Buffer]: the memory object and its [offset] and [size]
    attributes (in bytes). *)
Record Buffer := {
  b_mem : nat;
  b_offset : nat;
  b_size : nat;
}.

(** [cl.Image] *)
Record Image := {
  i_mem : nat;
  channel_order_of : channel_order;
  channel_data_type : channel_type;
  type : mem_object_type;
  width : nat;
  height : nat;
  depth : nat;
}.

(** [cla.Array] *)
Record cla_Array := {
  base_data : Buffer;
  a_offset : nat;
  a_shape : list nat;
  a_dtype : elt_dtype;
}.

(** [typing.Union[cla.Array, Buffer, Image]] *)
Inductive target :=
  | OfBuffer (b : Buffer)
  | OfImage (i : Image)
  | OfArray (a : cla_Array).

(** A host [np.ndarray] given as a fill value: its shape and raw bytes. *)
Record np_value := {
  v_shape : list nat;
  v_bytes : list byte;
}.

Definition nbytes (v : np_value) : nat := length (v_bytes v).

(** [np.array(np.float32(0))], the default value of [clear]. *)
Definition float32_zero : np_value :=
  {| v_shape := []; v_bytes := [x00; x00; x00; x00] |}.

(** [np.array([value] * 4)] *)
Definition four_times (v : np_value) : np_value :=
  {| v_shape := 4 :: v_shape v;
     v_bytes := v_bytes v ++ v_bytes v ++ v_bytes v ++ v_bytes v |}.

(** A live [cl.MemoryMap]: the mapped region and the bytes of the host
    view, which [release] writes back. *)
Record MemoryMap := {
  mm_mem : nat;
  mm_offset : nat;
  mm_shape : list nat;
  mm_dtype : elt_dtype;
  mm_bytes : list byte;
}.

(** The device: the bytes of every memory object, the live host
    mappings, and the next mapping to hand out. *)
Record Device := {
  memory : gmap nat (list byte);
  host_maps : gmap nat MemoryMap;
  next_map : nat;
}.

Definition product (l : list nat) : nat := foldr Nat.mul 1 l.

(** *** The OpenCL calls, after the OpenCL specification *)

(** [clEnqueueFillBuffer]: [pattern] repeated over the [size] bytes that
    start at [offset].  The pattern size is a power of two up to 128,
    [offset] and [size] are multiples of it, and the region lies inside
    the buffer. *)
Definition enqueue_fill_buffer (b : Buffer) (pattern : np_value)
    (offset size : nat) : M Device unit := fun dev =>
  let psize := nbytes pattern in
  match memory dev !! b_mem b with
  | None => (Raise (CLError "INVALID_MEM_OBJECT"), dev)
  | Some old =>
      if bool_decide (psize ∈ [1; 2; 4; 8; 16; 32; 64; 128])
         && bool_decide (offset `mod` psize = 0)
         && bool_decide (size `mod` psize = 0)
         && bool_decide (offset + size ≤ length old)
      then
        let filled := take size (concat (replicate (size `div` psize)
                                                   (v_bytes pattern))) in
        (OK tt,
         {| memory := <[b_mem b :=
                         take offset old ++ filled ++ drop (offset + size) old]>
                      (memory dev);
            host_maps := host_maps dev; next_map := next_map dev |})
      else (Raise (CLError "INVALID_VALUE"), dev)
  end.

(** [clEnqueueMapBuffer] / [clEnqueueMapImage] (blocking): a new live
    mapping whose host view holds the bytes of the region.  The call
    returns the view; here, the number of its [MemoryMap]. *)
Definition map_region (mem offset : nat) (shape : list nat)
    (dtype : elt_dtype) : M Device nat := fun dev =>
  let size := product shape * itemsize dtype in
  match memory dev !! mem with
  | None => (Raise (CLError "INVALID_MEM_OBJECT"), dev)
  | Some bytes =>
      if bool_decide (offset + size ≤ length bytes) then
        let mm := {| mm_mem := mem; mm_offset := offset; mm_shape := shape;
                     mm_dtype := dtype;
                     mm_bytes := take size (drop offset bytes) |} in
        (OK (next_map dev),
         {| memory := memory dev;
            host_maps := <[next_map dev := mm]> (host_maps dev);
            next_map := S (next_map dev) |})
      else (Raise (CLError "INVALID_VALUE"), dev)
  end.

Definition enqueue_map_buffer (b : Buffer) (offset : nat) (shape : list nat)
    (dtype : elt_dtype) : M Device nat :=
  map_region (b_mem b) offset shape dtype.

(** The region is always the whole image, counted here without row or
    slice padding. *)
Definition enqueue_map_image (i : Image) (origin region : nat * nat * nat)
    (shape : list nat) (dtype : elt_dtype) : M Device nat :=
  map_region (i_mem i) 0 shape dtype.

(** [MemoryMap.release()]: the host view is written back and the mapping
    ends; a second release is an error. *)
Definition release (m : nat) : M Device unit := fun dev =>
  match host_maps dev !! m with
  | None => (Raise (CLError "trying to double-unref mem map"), dev)
  | Some mm =>
      (OK tt,
       {| memory :=
            match memory dev !! mm_mem mm with
            | Some old =>
                <[mm_mem mm :=
                    take (mm_offset mm) old ++ mm_bytes mm ++
                    drop (mm_offset mm + length (mm_bytes mm)) old]>
                (memory dev)
            | None => memory dev
            end;
          host_maps := delete m (host_maps dev);
          next_map := next_map dev |})
  end.

(** What the host reads through the view of mapping [m]. *)
Definition view_bytes (m : nat) : M Device (list byte) := fun dev =>
  match host_maps dev !! m with
  | Some mm => (OK (mm_bytes mm), dev)
  | None => (Raise (CLError "view of a released mapping"), dev)
  end.

Section Clear.

(** [cl.enqueue_fill_image]; what it does to the image is left open. *)
Variable enqueue_fill_image :
  Image → np_value → nat * nat * nat → nat * nat * nat → M Device unit.

Definition clear (b : target) (value : np_value) : M Device unit :=
  match b with
  | OfBuffer b => enqueue_fill_buffer b value 0 (nbytes value)
  | OfImage b =>
      let value := if bool_decide (product (v_shape value) ≤ 1)
                   then four_times value else value in
      enqueue_fill_image b value (0, 0, 0)
        (width b, max 1 (height b), max 1 (depth b))
  | OfArray _ =>
      raise (AttributeError "'Array' object has no attribute 'width'")
  end.

End Clear.

(** The memory object behind a target. *)
Definition target_mem (b : target) : nat :=
  match b with
  | OfBuffer b => b_mem b
  | OfImage b => i_mem b
  | OfArray b => b_mem (base_data b)
  end.

(** Memory object [mem] has a live host mapping. *)
Definition host_mapped (mem : nat) (dev : Device) : Prop :=
  ∃ m mm, host_maps dev !! m = Some mm ∧ mm_mem mm = mem.

(** *** [mapped] *)

(** An instance of the class [_ctx] local to [mapped]: the target it
    closes over and its attribute [self.mapped]. *)
Record _ctx := {
  ctx_b : target;
  self_mapped : option nat;
}.

Definition mapped (b : target) : _ctx :=
  {| ctx_b := b; self_mapped := None |}.

Definition image_shape (b : Image) (cmps : nat) : list nat :=
  let shape := [depth b; height b; width b; cmps] in
  let shape := if bool_decide (mem_object_code (type b)
                               < mem_object_code IMAGE3D)%Z
               then drop 1 shape else shape in
  let shape := if bool_decide (mem_object_code (type b)
                               < mem_object_code IMAGE2D)%Z
               then drop 1 shape else shape in
  if bool_decide (cmps = 1) then removelast shape else shape.

(** [__enter__] returns the object with [self.mapped] set, and the
    view. *)
Definition __enter__ (self : _ctx) : M Device (_ctx * nat) :=
  let* m :=
    match ctx_b self with
    | OfImage b =>
        let* dtype := lift (__CHANNEL_TYPE_TO_DTYPE__ (channel_data_type b)) in
        let* cmps :=
          lift (__CHANNEL_ORDER_TO_COMPONENTS__ (channel_order_of b)) in
        enqueue_map_image b (0, 0, 0)
          (width b, max 1 (height b), max 1 (depth b))
          (image_shape b cmps) dtype
    | OfBuffer b => enqueue_map_buffer b (b_offset b) [b_size b] np_uint8
    | OfArray b =>
        enqueue_map_buffer (base_data b) (a_offset b) (a_shape b) (a_dtype b)
    end in
  ret ({| ctx_b := ctx_b self; self_mapped := Some m |}, m).

(** [__exit__] returns [None], so an exception of the body is not
    suppressed. *)
Definition __exit__ (self : _ctx) : M Device unit :=
  match self_mapped self with
  | Some m => release m
  | None => raise (Exception "'NoneType' object is not subscriptable")
  end.

(** [with mapped(b) as m: body(m)] *)
Definition with_mapped {T} (b : target) (body : nat → M Device T)
  : M Device T := fun dev =>
  let mgr := mapped b in
  match __enter__ mgr dev with
  | (Raise e, dev1) => (Raise e, dev1)
  | (OK (mgr, m), dev1) =>
      match body m dev1 with
      | (OK r, dev2) =>
          match __exit__ mgr dev2 with
          | (OK _, dev3) => (OK r, dev3)
          | (Raise e', dev3) => (Raise e', dev3)
          end
      | (Raise e, dev2) =>
          match __exit__ mgr dev2 with
          | (OK _, dev3) => (Raise e, dev3)
          | (Raise e', dev3) => (Raise e', dev3)
          end
      end
  end.

(** An 8-byte buffer that holds 0xff everywhere, on a device with no
    live mapping; and a use of a mapped view that fails. *)
Definition buffer8 : Buffer := {| b_mem := 0; b_offset := 0; b_size := 8 |}.

Definition device8 : Device :=
  {| memory := {[ 0 := replicate 8 xff ]}; host_maps := ∅; next_map := 0 |}.

Definition failing_use : nat → M Device unit :=
  fun _ => raise (Exception "the use of the view failed").

End Memory.

(** ** More of the vector and matrix library *)

Section Transforms.
Open Scope R_scope.

(** The fields a structured dtype can be indexed by with ['x'], ['y'],
    ['z'], ['w']: [float3] has no ['w'] (its fourth lane is padding),
    the 16-lane matrix type has the four titles on its first lanes. *)
Definition titled_fields (d : np_dtype) : nat :=
  match d with
  | float32 => 0
  | float2 => 2
  | float3 => 3
  | float4 => 4
  | float4x4 => 4
  end.

(** [v['x']] with the check NumPy makes: a plain array cannot be indexed
    by a string (IndexError, carried here as an [Exception] with the
    class name), a structured one only by a field it has. *)
Definition getitem (i : nat) (v : ndarray R) : result (list R) :=
  if decide (dtype v = float32) then
    Raise (Exception "IndexError: only integers, slices and arrays are valid indices")
  else if decide (i < titled_fields (dtype v))%nat then OK (field 0 i v)
  else Raise ValueError.

(** An element-wise operation on the lanes of two arrays: equal shapes
    meet lane by lane, a single element is broadcast over the other
    operand; other broadcasts are left out. *)
Definition np_broadcast (f : R → R → R) (s1 s2 : list nat) (u v : list R)
  : result (list R) :=
  if decide (s1 = s2) then OK (zip_with f u v)
  else match u, v with
       | [a], _ => OK (f a <$> v)
       | _, [b] => OK ((fun a => f a b) <$> u)
       | _, _ => Raise (Unmodelled "broadcast of two arrays of different shapes")
       end.

(** [(v1[i] * v2[j] - v1[k] * v2[l]).item()] *)
Definition cross_component (i j k l : nat) (v1 v2 : ndarray R) : result R :=
  a ← getitem i v1;
  b ← getitem j v2;
  ab ← np_broadcast Rmult (shape v1) (shape v2) a b;
  c ← getitem k v1;
  d ← getitem l v2;
  cd ← np_broadcast Rmult (shape v1) (shape v2) c d;
  (* both products have the broadcast shape of [v1] and [v2] *)
  item (zip_with Rminus ab cd).

Definition cross (v1 v2 : ndarray R) : result (ndarray R) :=
  cx ← cross_component 1 2 2 1 v1 v2;
  cy ← cross_component 2 0 0 2 v1 v2;
  cz ← cross_component 0 1 1 0 v1 v2;
  make_float3 0 (Components [cx; cy; cz]).

(** [t - f] on plain arrays, as lanes. *)
Definition np_sub (t f : ndarray R) : result (list R) :=
  np_broadcast Rminus (shape t) (shape f) (lanes t) (lanes f).

Definition direction (f t : ndarray R) : result (ndarray R) :=
  let f := to_array f in
  let t := to_array t in
  d ← np_sub t f;
  (* only the lanes of [t - f] matter to [make_float3] *)
  d ← make_float3 0 (Array (Ndarray float32 [length d] d));
  normalize d.

(** [v['x']] where a number is wanted, as an argument of [np.array]. *)
Definition scalar_field (i : nat) (v : ndarray R) : result R :=
  l ← getitem i v;
  item l.

Definition look_at (camera target up_vector : ndarray R)
  : result (value R) :=
  zaxis ← direction camera target;
  c ← cross up_vector zaxis;
  xaxis ← normalize c;
  yaxis ← cross zaxis xaxis;
  xx ← scalar_field 0 xaxis; yx ← scalar_field 0 yaxis;
  zx ← scalar_field 0 zaxis;
  xy ← scalar_field 1 xaxis; yy ← scalar_field 1 yaxis;
  zy ← scalar_field 1 zaxis;
  xz ← scalar_field 2 xaxis; yz ← scalar_field 2 yaxis;
  zz ← scalar_field 2 zaxis;
  dx ← dot xaxis camera;
  dy ← dot yaxis camera;
  dz ← dot zaxis camera;
  make_float4x4 (Components
    [xx; yx; zx; 0;
     xy; yy; zy; 0;
     xz; yz; zz; 0;
     - dx; - dy; - dz; 1]).

Definition scale (a : args R) : result (value R) :=
  xyz ← match a with
        | Components [s] => OK (s, s, s)        (* np.isscalar(args[0]) *)
        | Array v => unpack3 (to_array v)
        | Components [x; y; z] => OK (x, y, z)
        | Components _ => Raise ValueError
        end;
  let '(x, y, z) := xyz in
  make_float4x4 (Components
    [x; 0; 0; 0;
     0; y; 0; 0;
     0; 0; z; 0;
     0; 0; 0; 1]).

Definition rotate (angle : R) (axis : ndarray R) : result (value R) :=
  let cos := cos angle in
  let sin := sin angle in
  xyz ← unpack3 (to_array axis);
  let '(x, y, z) := xyz in
  make_float4x4 (Components
    [x * x * (1 - cos) + cos; y * x * (1 - cos) + z * sin;
       z * x * (1 - cos) - y * sin; 0;
     x * y * (1 - cos) - z * sin; y * y * (1 - cos) + cos;
       z * y * (1 - cos) + x * sin; 0;
     x * z * (1 - cos) + y * sin; y * z * (1 - cos) - x * sin;
       z * z * (1 - cos) + cos; 0;
     0; 0; 0; 1]).


(** A well-formed array holds [itemlanes] lanes for each of the entries
    that its shape announces. *)
Definition well_formed (v : ndarray R) : Prop :=
  length (lanes v) = (foldr Nat.mul 1 (shape v) * itemlanes (dtype v))%nat.

End Transforms.

(** ** Struct mirroring *)

Section Structs.
Import Kernel.
Context {pyobj : Type}.

(** A class as [kernel_struct] sees it: its name, the keys of
    [cls.__dict__], and [cls.__dict__['__annotations__']] when the class
    has annotations. *)
Record pyclass := {
  cls_name : string;
  cls_dict_keys : list string;
  cls_annotations : option (list (string * annotation pyobj));
}.

(** [np.dtype([(k, v) for k, v in fields.items()])] followed by
    [cltools.match_dtype_to_c_struct(device, name, dtype)]: the dtype
    laid out as the device does, and the C declaration of the struct.
    They raise for fields that are no dtypes. *)
Variable match_dtype_to_c_struct :
  string → list (string * annotation pyobj) → result (pyobj * string).

(** [cltools.get_or_register_dtype(name, dtype)], as the registry of
    pyopencl answers at the time of the call: it raises when the name
    is already registered for a different dtype. *)
Variable get_or_register_dtype : string → pyobj → result pyobj.

(** [k[0] != "_"] *)
Definition is_public (k : string) : result bool :=
  match k with
  | String c _ => OK (negb (bool_decide (String c "" = "_")))
  | EmptyString => Raise (Exception "IndexError: string index out of range")
  end.

(** [all(k in fields.keys() for k in keys if k[0] != "_")], which stops
    at the first key that fails. *)
Fixpoint all_annotated (fields : list (string * annotation pyobj))
    (keys : list string) : result bool :=
  match keys with
  | [] => OK true
  | k :: keys =>
      public ← is_public k;
      if public && negb (bool_decide (k ∈ fields.*1)) then OK false
      else all_annotated fields keys
  end.

Definition kernel_struct (cls : pyclass) : M (State pyobj) pyobj :=
  match cls_annotations cls with
  | None => raise KeyError
  | Some fields =>
      let* ok := lift (all_annotated fields (cls_dict_keys cls)) in
      if negb ok then
        raise (AssertionError "A public field was declared without annotation")
      else
        let* (dtype, cltype) :=
          lift (match_dtype_to_c_struct (cls_name cls) fields) in
        let* _ := append_code cltype in
        let* _ := lift (get_or_register_dtype (cls_name cls) dtype) in
        ret dtype
  end.

End Structs.

Arguments pyclass pyobj : clear implicits.

(** A struct class with two annotated fields, a private helper
    attribute, and the access to the device that accepts it. *)
Definition particle_class : pyclass Kernel.host_dtype :=
  {| cls_name := "Particle";
     cls_dict_keys := ["__module__"; "__annotations__"; "_scratch"; "mass";
                       "__dict__"; "__doc__"];
     cls_annotations := Some [("position", Kernel.AObj Kernel.dt_float4);
                              ("mass", Kernel.AObj Kernel.t_float32)] |}.

Definition particle_layout (name : string)
    (fields : list (string * Kernel.annotation Kernel.host_dtype))
  : result (Kernel.host_dtype * string) :=
  OK (Kernel.dt_float4x4,
      "typedef struct { float4 position; float mass; } Particle;").

(** A registry where no name is taken, and one where every name is
    taken by another dtype. *)
Definition registry_free (name : string) (d : Kernel.host_dtype)
  : result Kernel.host_dtype := OK d.

Definition registry_taken (name : string) (d : Kernel.host_dtype)
  : result Kernel.host_dtype :=
  Raise (Exception "RuntimeError").

(** ** Texts inside [__code__] *)

(** [needle] occurs in [hay]. *)
Definition contains (needle hay : string) : Prop :=
  ∃ pre post, hay = pre +:+ needle +:+ post.

(** How the declaration of kernel [name] starts. *)
Definition kernel_header (name : string) : string :=
  "__kernel void " +:+ name +:+ "(".

(** ** Images and host writes *)

Module Images.
Import Memory.

(** The dtypes a caller may ask an image of: the keys of
    [__IMAGE_FORMATS__] and, for the rest, two of the other registered
    dtypes. *)
Inductive pixel_dtype :=
  | px_float4 | px_float3 | px_float2 | px_float32 | px_RGBA
  | px_int4 | px_uint4.

Definition __IMAGE_FORMATS__ (d : pixel_dtype)
  : option (channel_order * channel_type) :=
  match d with
  | px_float4 => Some (ORDER_RGBA, FLOAT)
  | px_float3 => Some (ORDER_RGB, FLOAT)
  | px_float2 => Some (ORDER_RG, FLOAT)
  | px_float32 => Some (ORDER_R, FLOAT)
  | px_RGBA => Some (ORDER_BGRA, UNORM_INT8)
  | _ => None
  end.

Definition get_valid_image_formats : list pixel_dtype :=
  [px_float4; px_float3; px_float2; px_float32; px_RGBA].

(** The bytes of one channel and the channels of one pixel, after the
    OpenCL specification, for the formats of the table. *)
Definition channel_bytes (t : channel_type) : nat :=
  match t with
  | FLOAT | SIGNED_INT32 | UNSIGNED_INT32 => 4
  | HALF_FLOAT | UNORM_INT16 => 2
  | SIGNED_INT8 | UNSIGNED_INT8 | UNORM_INT8 | SNORM_INT8 => 1
  end.

Definition channels (o : channel_order) : nat :=
  match o with
  | ORDER_R | ORDER_A | ORDER_LUMINANCE => 1
  | ORDER_RG => 2
  | ORDER_RGB => 3
  | ORDER_RGBA | ORDER_BGRA => 4
  end.

Section Create.

(** The formats the device supports, and the contents of memory that
    was never written. *)
Variable format_supported : channel_order → channel_type → bool.
Variable garbage : nat → byte.

(** [cl.Image(__ctx__, READ_WRITE, format, shape=(width, height))]: a
    new two-dimensional image, whose height and width are those asked
    for and whose depth is 0; its contents are not initialised. *)
Definition cl_Image (format : channel_order * channel_type)
    (width height : nat) : M Device Image := fun dev =>
  if bool_decide (width = 0 ∨ height = 0) then
    (Raise (CLError "INVALID_IMAGE_SIZE"), dev)
  else if negb (format_supported format.1 format.2) then
    (Raise (CLError "IMAGE_FORMAT_NOT_SUPPORTED"), dev)
  else
    let mem := fresh (dom (memory dev)) in
    let size := width * height * channels format.1 * channel_bytes format.2 in
    (OK {| i_mem := mem; channel_order_of := format.1;
           channel_data_type := format.2; type := IMAGE2D;
           width := width; height := height; depth := 0 |},
     {| memory := <[mem := garbage <$> seq 0 size]> (memory dev);
        host_maps := host_maps dev; next_map := next_map dev |}).

Definition create_image2d (width height : nat) (dtype : pixel_dtype)
  : M Device Image :=
  match __IMAGE_FORMATS__ dtype with
  | None => raise (AssertionError "Unsupported dtype for image format")
  | Some format => cl_Image format width height
  end.

End Create.

(** [m[:] = data] on the view of mapping [m]: the host writes into the
    mapped bytes; the data must have the size of the view. *)
Definition view_write (data : list byte) (m : nat) : M Device unit :=
  fun dev =>
  match host_maps dev !! m with
  | None => (Raise (CLError "view of a released mapping"), dev)
  | Some mm =>
      if bool_decide (length data = length (mm_bytes mm)) then
        (OK tt,
         {| memory := memory dev;
            host_maps := <[m := {| mm_mem := mm_mem mm;
                                   mm_offset := mm_offset mm;
                                   mm_shape := mm_shape mm;
                                   mm_dtype := mm_dtype mm;
                                   mm_bytes := data |}]> (host_maps dev);
            next_map := next_map dev |})
      else (Raise ValueError, dev)
  end.

(** What [__enter__] asks the device to map, for an image. *)
Definition image_view (b : Image) : result (list nat * elt_dtype) :=
  dtype ← __CHANNEL_TYPE_TO_DTYPE__ (channel_data_type b);
  cmps ← __CHANNEL_ORDER_TO_COMPONENTS__ (channel_order_of b);
  OK (image_shape b cmps, dtype).

End Images.

(** * Properties *)

(** Over the exact reals a stored component is the component. *)
Ltac exact_lanes := cbv beta iota delta [fmap list_fmap narrow exact_reals].

(** ** Constructors and [to_array] *)

Section ArrayFacts.
Context {A : Type} {F32 : Float32 A} (zero : A).

(** A constructor applied to an array never gives an array back. *)
Lemma ravel_view_item_tuple (a : ndarray A) d r :
  ravel_view_item a d = OK r → r = Tuple (lanes a).
Proof.
  unfold ravel_view_item. case_decide; [|discriminate]. by intros [= <-].
Qed.



End ArrayFacts.



(** ** [dot], [normalize], [matmul] *)

Section AlgebraFacts.
Open Scope R_scope.

Lemma sqrt_25 : sqrt (3 * 3 + 4 * 4) = 5.
Proof.
  replace (3 * 3 + 4 * 4) with (5 * 5) by lra.
  apply sqrt_square. lra.
Qed.

(** The [float2] and [float4] branch of [normalize] divides by the
    length twice. *)
Lemma normalize_float2 x y :
  let l := sqrt (x * x + y * y) in
  normalize (Ndarray float2 [] [x; y])
  = OK (Ndarray float2 [1%nat] [x / l / l; y / l / l]).
Proof. reflexivity. Qed.

Lemma normalize_float4 x y z w :
  let l := sqrt (x * x + y * y + z * z + w * w) in
  normalize (Ndarray float4 [] [x; y; z; w])
  = OK (Ndarray float4 [1%nat] [x / l / l; y / l / l; z / l / l; w / l / l]).
Proof. reflexivity. Qed.

(** The [float3] branch divides once. *)
Lemma normalize_float3 x y z p :
  let l := sqrt (x * x + y * y + z * z) in
  normalize (Ndarray float3 [] [x; y; z; p])
  = OK (Ndarray float3 [] [x / l; y / l; z / l; 0]).
Proof. reflexivity. Qed.

Lemma dot_float3 x1 y1 z1 p1 x2 y2 z2 p2 :
  dot (Ndarray float3 [] [x1; y1; z1; p1]) (Ndarray float3 [] [x2; y2; z2; p2])
  = OK (x1 * x2 + y1 * y2 + z1 * z2).
Proof. reflexivity. Qed.

Lemma dot_float2 s x1 y1 x2 y2 :
  dot (Ndarray float2 s [x1; y1]) (Ndarray float2 s [x2; y2])
  = OK (x1 * x2 + y1 * y2).
Proof.
  unfold dot. cbn [dtype shape].
  rewrite !bool_decide_eq_true_2 by done. reflexivity.
Qed.

(** On [float3] values [normalize] does give a unit vector. *)
Lemma normalize_float3_unit x y z p :
  (x, y, z) ≠ (0, 0, 0) →
  ∃ n, normalize (Ndarray float3 [] [x; y; z; p]) = OK n
       ∧ dtype n = float3
       ∧ dot n n = OK 1.
Proof.
  intros Hnz. eexists. split; [apply normalize_float3|]. split; [done|].
  rewrite dot_float3. f_equal.
  set (d := x * x + y * y + z * z).
  assert (Hd : 0 < d).
  { destruct (Req_dec x 0) as [->|]; [|subst d; nra].
    destruct (Req_dec y 0) as [->|]; [|subst d; nra].
    destruct (Req_dec z 0) as [->|]; [|subst d; nra].
    by destruct Hnz. }
  assert (Hs : sqrt d * sqrt d = d) by (apply sqrt_sqrt; lra).
  assert (Hs0 : sqrt d ≠ 0).
  { intros E. rewrite E in Hs. lra. }
  transitivity (d / (sqrt d * sqrt d)).
  - subst d. field. done.
  - rewrite Hs. field. lra.
Qed.

(** C1, on the code: for the [float2] value (3, 4), whose length is 5,
    [normalize] returns (3/25, 4/25), not (3/5, 4/5), and the dot
    product of the result with itself is 1/25. *)
Theorem normalize_float2_3_4 :
  make_float2 (Components [3; 4]) = OK (Nd (Ndarray float2 [] [3; 4]))
  ∧ dot (Ndarray float2 [] [3; 4]) (Ndarray float2 [] [3; 4]) = OK 25
  ∧ normalize (Ndarray float2 [] [3; 4])
    = OK (Ndarray float2 [1%nat] [3 / 25; 4 / 25])
  ∧ dot (Ndarray float2 [1%nat] [3 / 25; 4 / 25])
        (Ndarray float2 [1%nat] [3 / 25; 4 / 25]) = OK (1 / 25)
  ∧ 1 / 25 ≠ 1
  ∧ 3 / 25 ≠ 3 / sqrt 25.
Proof.
  assert (H25 : sqrt 25 = 5).
  { rewrite <- sqrt_25. f_equal. lra. }
  split; [reflexivity|].
  split; [rewrite dot_float2; f_equal; lra|].
  split.
  { rewrite normalize_float2. cbv zeta. rewrite sqrt_25.
    do 2 f_equal. f_equal; [lra|]. f_equal. lra. }
  split; [rewrite dot_float2; f_equal; lra|].
  split; [lra|].
  rewrite H25. lra.
Qed.

End AlgebraFacts.

Section MatmulFacts.
Open Scope R_scope.

Lemma matmul_first_argument (a b : ndarray R) :
  dtype a ≠ float4 → dtype a ≠ float4x4 →
  matmul a b = Raise (AssertionError
    "First vector must be a float4 or a matrix float4x4").
Proof.
  intros H1 H2. unfold matmul.
  rewrite (bool_decide_eq_false_2 (dtype a = float4)) by done.
  rewrite (bool_decide_eq_false_2 (dtype a = float4x4)) by done.
  reflexivity.
Qed.

Lemma matmul_second_argument (a b : ndarray R) :
  dtype a = float4 ∨ dtype a = float4x4 → dtype b ≠ float4x4 →
  matmul a b = Raise (AssertionError "Second argument must be a matrix").
Proof.
  intros H1 H2. unfold matmul.
  rewrite (bool_decide_eq_false_2 (dtype b = float4x4)) by done.
  destruct H1 as [-> | ->]; reflexivity.
Qed.

(** The standard row-vector-by-matrix product, as a tuple. *)
Lemma matmul_vector v0 v1 v2 v3
    m00 m01 m02 m03 m10 m11 m12 m13 m20 m21 m22 m23 m30 m31 m32 m33 :
  matmul (Ndarray float4 [] [v0; v1; v2; v3])
         (Ndarray float4x4 [] [m00; m01; m02; m03; m10; m11; m12; m13;
                               m20; m21; m22; m23; m30; m31; m32; m33])
  = OK (Tuple
      [v0 * m00 + (v1 * m10 + (v2 * m20 + (v3 * m30 + 0)));
       v0 * m01 + (v1 * m11 + (v2 * m21 + (v3 * m31 + 0)));
       v0 * m02 + (v1 * m12 + (v2 * m22 + (v3 * m32 + 0)));
       v0 * m03 + (v1 * m13 + (v2 * m23 + (v3 * m33 + 0)))]).
Proof. reflexivity. Qed.

(** Whatever [matmul] returns is a tuple: its result has no [dtype] and
    cannot be an operand of [matmul], [dot] or [to_array] again. *)
Lemma matmul_returns_tuple (a b : ndarray R) r :
  matmul a b = OK r → ∃ t, r = Tuple t.
Proof.
  unfold matmul.
  destruct (negb _); [discriminate|].
  destruct (negb _); [discriminate|].
  destruct (np_matmul _ _) as [c|]; [|discriminate]. cbn.
  destruct (bool_decide _); intros H%ravel_view_item_tuple; eauto.
Qed.

(** C6, on the code: [matmul(make_float4(0,0,0,1), translate(5,-3,2))]
    is the Python tuple (5, -3, 2, 1); [make_float4(5,-3,2,1)] is a 0-d
    array of dtype [float4] with these components. *)
Theorem matmul_translate_is_a_tuple :
  let a := Ndarray float4 [] [0; 0; 0; 1] in
  let m := Ndarray float4x4 []
             [1; 0; 0; 0; 0; 1; 0; 0; 0; 0; 1; 0; 5; -3; 2; 1] in
  make_float4 (Components [0; 0; 0; 1]) = OK (Nd a)
  ∧ translate (Components [5; -3; 2]) = OK (Nd m)
  ∧ matmul a m = OK (Tuple [5; -3; 2; 1])
  ∧ make_float4 (Components [5; -3; 2; 1])
    = OK (Nd (Ndarray float4 [] [5; -3; 2; 1]))
  ∧ matmul a m ≠ make_float4 (Components [5; -3; 2; 1]).
Proof.
  intros a m.
  assert (Hm : matmul a m = OK (Tuple [5; -3; 2; 1])).
  { subst a m. rewrite matmul_vector. do 2 f_equal.
    repeat (apply (f_equal2 cons); [lra|]). reflexivity. }
  split; [reflexivity|]. split; [reflexivity|]. split; [exact Hm|].
  split; [reflexivity|].
  rewrite Hm. discriminate.
Qed.

End MatmulFacts.

(** ** Declarations *)

Section DeclarationFacts.
Import Kernel.
Context {pyobj : Type}.
Variable dtype_to_ctype : annotation pyobj → result string.

Local Abbreviation cltype := (_get_annotation_as_cltype dtype_to_ctype).

(** The two declaration functions, case by case. *)
Lemma kernel_main_cases (f : function pyobj) st :
  kernel_main dtype_to_ctype f st =
  match _get_signature f with
  | Raise e => (Raise e, st)
  | OK (s, r) =>
      if negb (is_empty r)
      then (Raise (AssertionError "Kernel main function must return void"),
            st)
      else
        match render_parameters dtype_to_ctype s false with
        | Raise e => (Raise e, st)
        | OK ps =>
            (OK {| d_name := __name__ f; d_s := s;
                   d_program := next_closure st |},
             {| __code__ := __code__ st +:+
                  (nl +:+ "__kernel void " +:+ __name__ f +:+ "(" +:+ ps +:+
                   ") {" +:+ nl +:+ "int thread_id = get_global_id(0);" +:+
                   nl +:+ doc_text f +:+ nl +:+ "}" +:+ nl +:+ "    ");
                programs := delete (next_closure st) (programs st);
                next_closure := S (next_closure st);
                built := built st;
                queue := queue st |})
        end
  end.
Proof.
  unfold kernel_main, bind, lift.
  destruct (_get_signature f) as [[s r]|e]; [|done].
  destruct (negb (is_empty r)); [done|].
  destruct (render_parameters _ s false); done.
Qed.

Lemma kernel_function_cases {T} (f : function pyobj) st :
  kernel_function (T := T) dtype_to_ctype f st =
  match _get_signature f with
  | Raise e => (Raise e, st)
  | OK (s, r) =>
      match cltype r true with
      | Raise e => (Raise e, st)
      | OK rt =>
          match render_parameters dtype_to_ctype s true with
          | Raise e => (Raise e, st)
          | OK ps =>
              (OK wrapper,
               {| __code__ := __code__ st +:+
                    (nl +:+ rt +:+ " " +:+ __name__ f +:+ "(" +:+ ps +:+
                     ") {" +:+ nl +:+ doc_text f +:+ nl +:+ "}" +:+ nl);
                  programs := programs st;
                  next_closure := next_closure st;
                  built := built st;
                  queue := queue st |})
          end
      end
  end.
Proof.
  unfold kernel_function, bind, lift.
  destruct (_get_signature f) as [[s r]|e]; [|done].
  destruct (cltype r true); [|done].
  destruct (render_parameters _ s true); done.
Qed.

(** A pointer to anything but a string is refused in an auxiliary
    function... *)
Lemma pointer_refused (t : annotation pyobj) :
  (∀ s, t ≠ AStr s) →
  cltype (AList [t]) true
  = Raise (AssertionError
             "Can not use pointers in kernel auxiliary functions").
Proof.
  intros Hs. cbn. destruct t; try done. by destruct (Hs s).
Qed.

(** ...but a pointer to a string is taken, as the string itself. *)
Lemma string_pointer_accepted (s : string) b :
  cltype (AList [AStr s]) b = OK s.
Proof. reflexivity. Qed.

(** C4, on the code: an auxiliary function whose only parameter is
    annotated with the one-element list [[s]], [s] a string, and which
    returns [None], is declared without error; its parameter is
    written as [s], not as a pointer. *)
Theorem kernel_function_accepts_string_pointer
    (fname pname s : string) (doc : option string) (st : State pyobj) :
  let f := {| __name__ := fname;
              parameters := [ {| name := pname;
                                 p_annotation := AList [AStr s] |} ];
              return_annotation := ANone;
              getdoc := doc |} in
  kernel_function (T := unit) dtype_to_ctype f st
  = (OK wrapper,
     {| __code__ := __code__ st +:+
          (nl +:+ "void " +:+ fname +:+ "(" +:+ (s +:+ " " +:+ pname) +:+
           ") {" +:+ nl +:+ doc_text f +:+ nl +:+ "}" +:+ nl);
        programs := programs st;
        next_closure := next_closure st;
        built := built st;
        queue := queue st |}).
Proof.
  intros f. rewrite kernel_function_cases. reflexivity.
Qed.

(** C8: whatever function was declared with [kernel_function] and
    whatever the arguments, calling the value it returned raises
    [Exception("Can not call to this function from host.")]. *)
Theorem wrapper_always_raises {T} (f : function pyobj) st w st'
    (call_args : list pyobj) :
  kernel_function (T := T) dtype_to_ctype f st = (OK w, st') →
  w call_args = Raise (Exception "Can not call to this function from host.").
Proof.
  rewrite kernel_function_cases.
  destruct (_get_signature f) as [[s r]|e]; [|discriminate].
  destruct (cltype r true); [|discriminate].
  destruct (render_parameters _ s true); [|discriminate].
  intros [= <- _]. reflexivity.
Qed.

(** C10: [None] as return annotation is rendered as [void] by the
    annotation mapping, and yet [kernel_main] refuses it with an
    assertion error, as it refuses every return annotation: a
    declaration that succeeds has no return annotation at all. *)
Theorem kernel_main_wants_no_return_annotation
    (f : function pyobj) (st : State pyobj) :
  (∀ b, cltype ANone b = OK "void")
  ∧ (return_annotation f = ANone →
     kernel_main dtype_to_ctype f st
     = (Raise (AssertionError
          (if forallb (fun v => negb (is_empty (p_annotation v)))
                      (parameters f)
           then "Kernel main function must return void"
           else "All arguments needs to be annotated with a type descriptor")),
        st))
  ∧ (is_empty (return_annotation f) = false →
     ∃ msg, kernel_main dtype_to_ctype f st
            = (Raise (AssertionError msg), st))
  ∧ (∀ d st', kernel_main dtype_to_ctype f st = (OK d, st') →
              return_annotation f = Empty).
Proof.
  split; [done|].
  rewrite kernel_main_cases. unfold _get_signature.
  destruct (forallb _ (parameters f)).
  - repeat split.
    + by intros ->.
    + intros ->. eauto.
    + intros d st'. destruct (return_annotation f); try discriminate. done.
  - repeat split; [eauto | discriminate].
Qed.

End DeclarationFacts.

(** ** Dispatch *)

Section DispatchFacts.
Import Kernel.
Context {pyobj : Type}.
Variable dtype_to_ctype : annotation pyobj → result string.
Variable build_ok : string → bool.

Local Abbreviation dispatch_call := (Kernel.dispatch_call build_ok).
Local Abbreviation run := (Kernel.run dtype_to_ctype build_ok).
Local Abbreviation step := (Kernel.step dtype_to_ctype build_ok).

Lemma math_prod_cons x l : math_prod (x :: l) = (x * math_prod l)%Z.
Proof.
  unfold math_prod. cbn [foldl].
  replace (1 * x)%Z with (x * 1)%Z by lia.
  generalize 1%Z. induction l as [|y l IH]; intros a; cbn [foldl]; [done|].
  rewrite <- IH. f_equal. lia.
Qed.

Lemma dispatch_call_cases (dc : dispatch_closure pyobj) call_args st :
  dispatch_call dc call_args st =
  let c := d_program (dc_self dc) in
  match programs st !! c with
  | Some p =>
      (OK tt,
       {| __code__ := __code__ st; programs := programs st;
          next_closure := next_closure st; built := built st;
          queue := queue st ++
                   [kernel_call (dc_self dc) (num_threads dc) p call_args] |})
  | None =>
      if build_ok (__code__ st) then
        let p := {| source := __code__ st |} in
        (OK tt,
         {| __code__ := __code__ st;
            programs := <[c := p]> (programs st);
            next_closure := next_closure st;
            built := built st ++ [(c, p)];
            queue := queue st ++
              [kernel_call (dc_self dc) (num_threads dc) p call_args] |})
      else (Raise (CLError "clBuildProgram failed"), st)
  end.
Proof.
  unfold Kernel.dispatch_call, bind, get. cbn.
  destruct (programs st !! _); [done|].
  unfold build_program. destruct (build_ok _); done.
Qed.

Lemma math_prod_foldr l : math_prod l = foldr Z.mul 1%Z l.
Proof.
  induction l as [|x l IH]; [reflexivity|].
  rewrite math_prod_cons, IH. reflexivity.
Qed.

(** C7: a dispatcher indexed by a shape (a list or a tuple)
    behaves as the same dispatcher indexed by the product of the
    components of the shape (1 for the empty shape, the first component
    times the product of the others otherwise); and every call that
    goes through enqueues exactly one kernel call, whose global size is
    that single number. *)
Theorem dispatch_global_size_is_product (self : Dispatcher pyobj) :
  (∀ l, __getitem__ self (Tuple l)
        = __getitem__ self (Int (foldr Z.mul 1%Z l)))
  ∧ (∀ l, __getitem__ self (List l)
          = __getitem__ self (Int (foldr Z.mul 1%Z l)))
  ∧ (∀ n, num_threads (__getitem__ self (Int n)) = n)
  ∧ (∀ i call_args st st',
       dispatch_call (__getitem__ self i) call_args st = (OK tt, st') →
       ∃ p, queue st' = queue st ++
              [kernel_call self
                 match i with
                 | Int n => n
                 | List l | Tuple l => foldr Z.mul 1%Z l
                 end p call_args]
            ∧ e_program (kernel_call self
                 match i with
                 | Int n => n
                 | List l | Tuple l => foldr Z.mul 1%Z l
                 end p call_args) = p
            ∧ e_global_size (kernel_call self
                 match i with
                 | Int n => n
                 | List l | Tuple l => foldr Z.mul 1%Z l
                 end p call_args)
              = [match i with
                 | Int n => n
                 | List l | Tuple l => foldr Z.mul 1%Z l
                 end]
            ∧ e_local_size (kernel_call self
                 match i with
                 | Int n => n
                 | List l | Tuple l => foldr Z.mul 1%Z l
                 end p call_args) = None).
Proof.
  split; [|split; [|split]].
  - intros l. unfold __getitem__. by rewrite math_prod_foldr.
  - intros l. unfold __getitem__. by rewrite math_prod_foldr.
  - done.
  - intros i call_args st st'. rewrite dispatch_call_cases. cbn zeta.
    assert (Hn : num_threads (__getitem__ self i)
                 = match i with
                   | Int n => n
                   | List l | Tuple l => foldr Z.mul 1%Z l
                   end)
      by (destruct i; cbn; by rewrite ?math_prod_foldr).
    cbn [dc_self __getitem__] in *. rewrite Hn.
    destruct (programs st !! _) as [p|].
    + intros [= <-]. by exists p.
    + destruct (build_ok _); [|discriminate].
      intros [= <-]. by eexists.
Qed.

(** *** One program per closure *)

Lemma builds_of_snoc c c' p (l : list (nat * Program)) :
  length (filter (fun b : nat * Program => b.1 = c) (l ++ [(c', p)]))
  = length (filter (fun b : nat * Program => b.1 = c) l)
    + (if decide (c' = c) then 1 else 0).
Proof.
  rewrite filter_app, length_app. f_equal.
  rewrite filter_cons. cbn. by destruct (decide (c' = c)).
Qed.

Lemma session_inv_init : session_inv (init pyobj, []).
Proof.
  split; [|split; [|split]]; cbn.
  - done.
  - intros c p H. by rewrite lookup_empty in H.
  - intros c _. apply lookup_empty.
  - intros d H. by apply elem_of_nil in H.
Qed.

Lemma session_inv_frame (st st' : State pyobj) ds :
  programs st' = programs st → next_closure st' = next_closure st →
  built st' = built st →
  session_inv (st, ds) → session_inv (st', ds).
Proof.
  unfold session_inv, builds_of. cbn [fst snd].
  by intros -> -> ->.
Qed.

Lemma session_inv_step c s : session_inv s → session_inv (step c s).
Proof.
  destruct s as [st ds]. intros Hinv.
  destruct c as [f|f|d i call_args]; cbn [Kernel.step].
  - (* kernel_function touches [__code__] only *)
    rewrite (kernel_function_cases dtype_to_ctype).
    destruct (_get_signature f) as [[s r]|]; [|done].
    destruct (_get_annotation_as_cltype _ r true); [|done].
    destruct (render_parameters _ s true); [|done].
    by apply (session_inv_frame st).
  - (* kernel_main creates a closure with [program = None] *)
    rewrite (kernel_main_cases dtype_to_ctype).
    destruct (_get_signature f) as [[s r]|]; [|done].
    destruct (negb (is_empty r)); [done|].
    destruct (render_parameters _ s false); [|done].
    destruct Hinv as (H0 & H1 & Hfresh & Hds).
    unfold session_inv, builds_of in *; cbn [fst snd programs built
      next_closure d_program] in *.
    split; [|split; [|split]].
    + intros c. destruct (decide (c = next_closure st)) as [->|Hne].
      * intros _. apply H0, Hfresh. lia.
      * rewrite lookup_delete_ne by done. apply H0.
    + intros c p. destruct (decide (c = next_closure st)) as [->|Hne].
      * by rewrite lookup_delete_eq.
      * rewrite lookup_delete_ne by done. apply H1.
    + intros c Hc. rewrite lookup_delete_ne by lia. apply Hfresh. lia.
    + intros d0 [Hin | ->%list_elem_of_singleton]%elem_of_app.
      * specialize (Hds _ Hin). lia.
      * cbn. lia.
  - (* a call builds at most the program of its own closure *)
    destruct (ds !! d) as [self|] eqn:Hself; [|done].
    rewrite dispatch_call_cases. cbn zeta.
    cbn [__getitem__ dc_self].
    destruct (programs st !! d_program self) as [p|] eqn:Hp;
      [by apply (session_inv_frame st)|].
    destruct (build_ok _); [|done].
    destruct Hinv as (H0 & H1 & Hfresh & Hds).
    assert (Hlt : d_program self < next_closure st).
    { apply Hds. eapply list_elem_of_lookup_2, Hself. }
    unfold session_inv, builds_of in *; cbn [fst snd programs built
      next_closure] in *.
    split; [|split; [|split]].
    + intros c. destruct (decide (c = d_program self)) as [->|Hne].
      * by rewrite lookup_insert_eq.
      * rewrite lookup_insert_ne by done. intros Hc.
        rewrite builds_of_snoc.
        rewrite decide_False by done. rewrite H0 by done. done.
    + intros c p. rewrite builds_of_snoc.
      destruct (decide (c = d_program self)) as [->|Hne].
      * rewrite lookup_insert_eq. intros [= <-].
        rewrite decide_True by done. rewrite H0 by done.
        split; [done|]. apply elem_of_app. right.
        by apply list_elem_of_singleton.
      * rewrite lookup_insert_ne by done. intros Hc.
        rewrite decide_False by done. destruct (H1 _ _ Hc) as [-> Hin].
        split; [done|]. apply elem_of_app. by left.
    + intros c Hc. rewrite lookup_insert_ne by lia. by apply Hfresh.
    + done.
Qed.

Lemma run_snoc cs c : run (cs ++ [c]) = step c (run cs).
Proof. unfold Kernel.run. by rewrite foldl_app. Qed.

Lemma session_inv_run cs : session_inv (run cs).
Proof.
  induction cs as [|c cs IH] using rev_ind.
  - apply session_inv_init.
  - rewrite run_snoc. by apply session_inv_step.
Qed.

(** C3, as the code has it: the [program] variable belongs to the
    closure that one call of [kernel_main] creates, so a program is
    built at most once per kernel entry point, not once per process.
    In every session each closure builds at most one program; a call
    through a dispatcher whose closure has no program yet builds one
    from the whole of [__code__] as it is then and keeps it; a call
    through a dispatcher whose closure has a program uses it and builds
    nothing; and the closure of a new dispatcher starts without a
    program, whatever other dispatchers have built. *)
Theorem program_built_once_per_kernel :
  (∀ cs c, builds_of c (run cs).1 ≤ 1)
  ∧ (∀ (dc : dispatch_closure pyobj) call_args st,
       programs st !! d_program (dc_self dc) = None →
       build_ok (__code__ st) = true →
       ∃ st', dispatch_call dc call_args st = (OK tt, st')
              ∧ built st' = built st ++
                  [(d_program (dc_self dc), {| source := __code__ st |})]
              ∧ programs st' !! d_program (dc_self dc)
                = Some {| source := __code__ st |})
  ∧ (∀ (dc : dispatch_closure pyobj) call_args st p,
       programs st !! d_program (dc_self dc) = Some p →
       ∃ st', dispatch_call dc call_args st = (OK tt, st')
              ∧ built st' = built st
              ∧ programs st' = programs st
              ∧ queue st' = queue st ++
                  [kernel_call (dc_self dc) (num_threads dc) p call_args])
  ∧ (∀ f st d st',
       kernel_main dtype_to_ctype f st = (OK d, st') →
       programs st' !! d_program d = None).
Proof.
  split; [|split; [|split]].
  - intros cs c. destruct (session_inv_run cs) as (H0 & H1 & _).
    destruct (programs (run cs).1 !! c) as [p|] eqn:Hp.
    + destruct (H1 _ _ Hp) as [-> _]. done.
    + rewrite (H0 _ Hp). lia.
  - intros dc call_args st Hnone Hok. rewrite dispatch_call_cases.
    cbn zeta. rewrite Hnone, Hok. eexists. split; [done|]. cbn.
    split; [done|]. apply lookup_insert_eq.
  - intros dc call_args st p Hsome. rewrite dispatch_call_cases.
    cbn zeta. rewrite Hsome. eexists. by split.
  - intros f st d st'. rewrite kernel_main_cases.
    destruct (_get_signature f) as [[s r]|]; [|discriminate].
    destruct (negb (is_empty r)); [discriminate|].
    destruct (render_parameters _ s false); [|discriminate].
    intros [= <- <-]. cbn. apply lookup_delete_eq.
Qed.

End DispatchFacts.

(** C3, as stated, fails: two kernel entry points, each called once,
    build two programs in one process. *)
Lemma two_kernels_build_two_programs :
  ¬ Kernel.built_once_per_process Kernel.registered_ctype (fun _ => true).
Proof.
  intros H.
  specialize (H [Kernel.DeclareKernel Kernel.fill_kernel;
                 Kernel.DeclareKernel Kernel.negate_kernel;
                 Kernel.Call 0 (Kernel.Int 12) [];
                 Kernel.Call 1 (Kernel.Tuple [3; 4]%Z) []]).
  vm_compute in H. lia.
Qed.

(** ** [clear] and [mapped] *)

Section MemoryFacts.
Import Memory.
Variable enqueue_fill_image :
  Image → np_value → nat * nat * nat → nat * nat * nat → M Device unit.

Local Abbreviation clear := (Memory.clear enqueue_fill_image).

(** [clear] on a buffer writes the bytes of the value once, at the
    start of the buffer, and leaves the rest as it was. *)
Lemma clear_buffer_writes_one_value (b : Buffer) value dev dev' :
  clear (OfBuffer b) value dev = (OK tt, dev') →
  ∃ old, memory dev !! b_mem b = Some old
         ∧ nbytes value ≤ length old
         ∧ memory dev' !! b_mem b
           = Some (v_bytes value ++ drop (nbytes value) old).
Proof.
  cbn. unfold enqueue_fill_buffer.
  destruct (memory dev !! b_mem b) as [old|]; [|discriminate].
  destruct (bool_decide (nbytes value ∈ _)) eqn:Hsize; [|discriminate].
  apply bool_decide_eq_true in Hsize.
  cbn [andb].
  destruct (bool_decide (0 `mod` _ = 0)); [|discriminate].
  destruct (bool_decide (nbytes value `mod` _ = 0)); [|discriminate].
  cbn [andb].
  destruct (bool_decide (0 + _ ≤ _)) eqn:Hlen; [|discriminate].
  apply bool_decide_eq_true in Hlen.
  intros [= <-]. exists old. split; [done|]. split; [lia|].
  cbn. rewrite lookup_insert_eq. f_equal.
  assert (Hpos : nbytes value ≠ 0).
  { intros E. rewrite E in Hsize.
    repeat (apply elem_of_cons in Hsize as [Hsize|Hsize]; [lia|]).
    by apply elem_of_nil in Hsize. }
  rewrite Nat.div_same by done. cbn. rewrite app_nil_r.
  unfold nbytes. by rewrite firstn_all.
Qed.

Lemma enter_buffer (b : Buffer) dev bytes :
  memory dev !! b_mem b = Some bytes →
  b_offset b + b_size b ≤ length bytes →
  __enter__ (mapped (OfBuffer b)) dev
  = (OK ({| ctx_b := OfBuffer b; self_mapped := Some (next_map dev) |},
         next_map dev),
     {| memory := memory dev;
        host_maps :=
          <[next_map dev :=
              {| mm_mem := b_mem b; mm_offset := b_offset b;
                 mm_shape := [b_size b]; mm_dtype := np_uint8;
                 mm_bytes := take (b_size b) (drop (b_offset b) bytes) |}]>
          (host_maps dev);
        next_map := S (next_map dev) |}).
Proof.
  intros Hmem Hlen.
  unfold __enter__, bind, mapped, enqueue_map_buffer, map_region. cbn.
  rewrite Hmem. rewrite bool_decide_eq_true_2 by lia. cbn.
  repeat f_equal; lia.
Qed.

(** C2, on the code: an 8-byte buffer that holds 0xff everywhere is
    cleared with the default value; a scoped map of it then reads four
    zero bytes followed by the four old bytes. *)
Theorem clear_fills_four_bytes :
  ((let* _ := clear (OfBuffer buffer8) float32_zero in
    with_mapped (OfBuffer buffer8) view_bytes) device8).1
  = OK [x00; x00; x00; x00; xff; xff; xff; xff].
Proof.
  set (b := buffer8). set (dev := device8). unfold bind.
  destruct (clear (OfBuffer b) float32_zero dev) as [r dev'] eqn:Hclear.
  assert (Hdev' : r = OK tt ∧ memory dev' !! 0
                  = Some [x00; x00; x00; x00; xff; xff; xff; xff]).
  { revert Hclear. cbn. unfold enqueue_fill_buffer. cbn.
    rewrite lookup_singleton_eq. cbn.
    rewrite bool_decide_eq_true_2.
    2:{ cbn. set_solver. }
    cbn. intros [= <- <-]. split; [done|]. cbn.
    by rewrite lookup_insert_eq. }
  destruct Hdev' as [-> Hmem].
  unfold with_mapped.
  rewrite (enter_buffer b dev' _ Hmem) by (cbn; lia).
  unfold view_bytes at 1. cbn [host_maps].
  rewrite lookup_insert_eq. cbn [mm_bytes].
  unfold __exit__, release. cbn [self_mapped host_maps].
  rewrite lookup_insert_eq. reflexivity.
Qed.

Lemma map_region_ok mem offset shape dtype dev m dev1 :
  map_region mem offset shape dtype dev = (OK m, dev1) →
  m = next_map dev
  ∧ memory dev1 = memory dev
  ∧ ∃ mm, host_maps dev1 = <[m := mm]> (host_maps dev) ∧ mm_mem mm = mem.
Proof.
  unfold map_region.
  destruct (memory dev !! mem); [|discriminate].
  destruct (bool_decide _); [|discriminate].
  intros [= <- <-]. cbn. eauto.
Qed.

Lemma enter_ok b dev mgr m dev1 :
  __enter__ (mapped b) dev = (OK (mgr, m), dev1) →
  mgr = {| ctx_b := b; self_mapped := Some m |}
  ∧ memory dev1 = memory dev
  ∧ ∃ mm, host_maps dev1 = <[m := mm]> (host_maps dev)
          ∧ mm_mem mm = target_mem b.
Proof.
  unfold __enter__, bind, lift, ret. cbn [mapped ctx_b].
  destruct b as [b|b|b]; cbn [target_mem].
  - unfold enqueue_map_buffer.
    destruct (map_region _ _ _ _ dev) as [[m0|] dev0] eqn:Hmap;
      [|discriminate].
    intros [= <- <- <-]. apply map_region_ok in Hmap as (_ & ? & ?). eauto.
  - destruct (__CHANNEL_TYPE_TO_DTYPE__ _); [|discriminate].
    destruct (__CHANNEL_ORDER_TO_COMPONENTS__ _); [|discriminate].
    unfold enqueue_map_image.
    destruct (map_region _ _ _ _ dev) as [[m0|] dev0] eqn:Hmap;
      [|discriminate].
    intros [= <- <- <-]. apply map_region_ok in Hmap as (_ & ? & ?). eauto.
  - unfold enqueue_map_buffer.
    destruct (map_region _ _ _ _ dev) as [[m0|] dev0] eqn:Hmap;
      [|discriminate].
    intros [= <- <- <-]. apply map_region_ok in Hmap as (_ & ? & ?). eauto.
Qed.

(** After [release m], mapping [m] is not live, whether the call
    succeeded or found it released already. *)
Lemma release_not_live m dev : host_maps (release m dev).2 !! m = None.
Proof.
  unfold release. destruct (host_maps dev !! m) eqn:Hm; cbn; [|done].
  apply lookup_delete_eq.
Qed.

Lemma release_live m dev mm :
  host_maps dev !! m = Some mm →
  (release m dev).1 = OK tt
  ∧ host_maps (release m dev).2 = delete m (host_maps dev).
Proof. unfold release. by intros ->. Qed.

Lemma with_mapped_entered {T} b (body : nat → M Device T) dev m dev1 :
  __enter__ (mapped b) dev
    = (OK ({| ctx_b := b; self_mapped := Some m |}, m), dev1) →
  with_mapped b body dev =
  (match (body m dev1).1, (release m (body m dev1).2).1 with
   | r, OK _ => r
   | _, Raise e' => Raise e'
   end,
   (release m (body m dev1).2).2).
Proof.
  intros Henter. unfold with_mapped. rewrite Henter.
  unfold __exit__. cbn [self_mapped].
  destruct (body m dev1) as [[r|e] dev2]; cbn [fst snd];
    by destruct (release m dev2) as [[[]|e'] dev3].
Qed.

(** C9: once [__enter__] has mapped the target (a buffer, an image or
    an array), the mapping is live inside the scope and is not live
    after the scope, whatever the body does and whether it returns or
    raises; the body's result, value or exception, is the result of
    the scope; and if the target had no host mapping before and the
    body leaves the table of mappings alone, the target has none
    after. *)
Theorem mapped_released_on_every_exit {T} (b : target)
    (body : nat → M Device T) dev mgr m dev1 :
  __enter__ (mapped b) dev = (OK (mgr, m), dev1) →
  is_Some (host_maps dev1 !! m)
  ∧ host_maps (with_mapped b body dev).2 !! m = None
  ∧ (is_Some (host_maps (body m dev1).2 !! m) →
     (with_mapped b body dev).1 = (body m dev1).1)
  ∧ (¬ host_mapped (target_mem b) dev →
     mm_mem <$> host_maps (body m dev1).2 = mm_mem <$> host_maps dev1 →
     ¬ host_mapped (target_mem b) (with_mapped b body dev).2).
Proof.
  intros Henter.
  destruct (enter_ok _ _ _ _ _ Henter) as (-> & Hmem & mm & Hmaps & Hmm).
  rewrite (with_mapped_entered _ _ _ _ _ Henter). cbn [fst snd].
  split; [|split; [|split]].
  - rewrite Hmaps, lookup_insert_eq. eauto.
  - apply release_not_live.
  - intros [mm' Hlive]. destruct (release_live _ _ _ Hlive) as [-> _].
    by destruct (body m dev1).1.
  - intros Hfree Hbody [k [mk [Hk Hmk]]].
    assert (Hlive : is_Some (host_maps (body m dev1).2 !! m)).
    { apply (f_equal (fun t => t !! m)) in Hbody.
      rewrite !lookup_fmap, Hmaps, lookup_insert_eq in Hbody.
      destruct (host_maps (body m dev1).2 !! m); [eauto|discriminate]. }
    destruct Hlive as [mm' Hlive].
    destruct (release_live _ _ _ Hlive) as [_ Hrel].
    rewrite Hrel in Hk.
    destruct (decide (k = m)) as [->|Hne];
      [by rewrite lookup_delete_eq in Hk|].
    rewrite lookup_delete_ne in Hk by done.
    apply (f_equal (fun t => t !! k)) in Hbody.
    rewrite !lookup_fmap, Hmaps, lookup_insert_ne, Hk in Hbody by done.
    cbn in Hbody.
    destruct (host_maps dev !! k) as [mk0|] eqn:Hk0; [|discriminate].
    injection Hbody as Hbody.
    apply Hfree. exists k, mk0. split; [done|]. congruence.
Qed.

End MemoryFacts.

(** ** The theorems at work on concrete inputs *)

Section Instances.
Import Kernel Memory.

Lemma wrapper_always_raises_witness :
  kernel_function (T := unit) registered_ctype square_function
    (init host_dtype)
  = (OK wrapper,
     (kernel_function (T := unit) registered_ctype square_function
        (init host_dtype)).2)
  ∧ wrapper (T := unit) [t_float32]
    = Raise (Exception "Can not call to this function from host.").
Proof.
  assert (H : kernel_function (T := unit) registered_ctype square_function
                (init host_dtype)
              = (OK wrapper,
                 (kernel_function (T := unit) registered_ctype
                    square_function (init host_dtype)).2))
    by reflexivity.
  split; [exact H|].
  exact (wrapper_always_raises registered_ctype square_function
           (init host_dtype) wrapper _ [t_float32] H).
Defined.

Lemma kernel_main_wants_no_return_annotation_witness :
  return_annotation void_kernel = ANone
  ∧ is_empty (return_annotation void_kernel) = false
  ∧ kernel_main registered_ctype void_kernel (init host_dtype)
    = (Raise (AssertionError "Kernel main function must return void"),
       init host_dtype)
  ∧ (∃ msg, kernel_main registered_ctype void_kernel (init host_dtype)
            = (Raise (AssertionError msg), init host_dtype))
  ∧ kernel_main registered_ctype fill_kernel (init host_dtype)
    = (OK fill_dispatcher, fill_declared.2)
  ∧ return_annotation fill_kernel = Empty.
Proof.
  destruct (kernel_main_wants_no_return_annotation registered_ctype
              void_kernel (init host_dtype)) as (_ & H2 & H3 & _).
  destruct (kernel_main_wants_no_return_annotation registered_ctype
              fill_kernel (init host_dtype)) as (_ & _ & _ & H4).
  split; [reflexivity|]. split; [reflexivity|].
  split; [exact (H2 eq_refl)|]. split; [exact (H3 eq_refl)|].
  split; [reflexivity|].
  exact (H4 fill_dispatcher fill_declared.2 eq_refl).
Defined.

Lemma dispatch_global_size_is_product_witness :
  iota_declared = (OK iota_dispatcher, iota_declared.2)
  ∧ dispatch_call (fun _ => true)
    (__getitem__ iota_dispatcher (Tuple [3; 4]%Z)) iota_args iota_declared.2
  = (OK tt, iota_called.2)
  ∧ __getitem__ iota_dispatcher (Tuple [3; 4]%Z)
    = __getitem__ iota_dispatcher (Int 12)
  ∧ ∃ p, queue iota_called.2
         = queue iota_declared.2 ++ [kernel_call iota_dispatcher 12 p iota_args]
         ∧ e_program (kernel_call iota_dispatcher 12 p iota_args) = p
         ∧ e_global_size (kernel_call iota_dispatcher 12 p iota_args)
           = [12%Z]
         ∧ e_local_size (kernel_call iota_dispatcher 12 p iota_args) = None.
Proof.
  destruct (dispatch_global_size_is_product (fun _ => true)
              iota_dispatcher) as (H1 & _ & _ & H4).
  split; [reflexivity|].
  split; [reflexivity|]. split; [exact (H1 [3; 4]%Z)|].
  exact (H4 (Tuple [3; 4]%Z) iota_args iota_declared.2 iota_called.2 eq_refl).
Defined.

Lemma program_built_once_per_kernel_witness :
  builds_of 0
    (run registered_ctype (fun _ => true)
       [DeclareKernel fill_kernel; Call 0 (Int 12) [];
        Call 0 (Tuple [3; 4]%Z) []]).1 ≤ 1
  ∧ programs fill_declared.2 !! 0 = None
  ∧ (∃ st', dispatch_call (fun _ => true)
              (__getitem__ fill_dispatcher (Int 12)) [] fill_declared.2
            = (OK tt, st')
            ∧ built st' = built fill_declared.2 ++
                [(0, {| source := __code__ fill_declared.2 |})]
            ∧ programs st' !! 0
              = Some {| source := __code__ fill_declared.2 |})
  ∧ programs fill_called.2 !! 0
    = Some {| source := __code__ fill_declared.2 |}
  ∧ (∃ st', dispatch_call (fun _ => true)
              (__getitem__ fill_dispatcher (Tuple [3; 4]%Z)) []
              fill_called.2
            = (OK tt, st')
            ∧ built st' = built fill_called.2
            ∧ programs st' = programs fill_called.2
            ∧ queue st' = queue fill_called.2 ++
                [kernel_call fill_dispatcher 12
                   {| source := __code__ fill_declared.2 |} []])
  ∧ kernel_main registered_ctype negate_kernel fill_called.2
    = (OK {| d_name := "negate";
             d_s := (fun v => (name v, v)) <$> parameters negate_kernel;
             d_program := 1 |},
       (kernel_main registered_ctype negate_kernel fill_called.2).2)
  ∧ programs (kernel_main registered_ctype negate_kernel fill_called.2).2
    !! 1 = None.
Proof.
  destruct (program_built_once_per_kernel registered_ctype (fun _ => true))
    as (H1 & H2 & H3 & H4).
  split; [apply H1|].
  split; [reflexivity|].
  split; [exact (H2 (__getitem__ fill_dispatcher (Int 12)) []
                   fill_declared.2 eq_refl eq_refl)|].
  split; [reflexivity|].
  split; [exact (H3 (__getitem__ fill_dispatcher (Tuple [3; 4]%Z)) []
                   fill_called.2 _ eq_refl)|].
  split; [reflexivity|].
  exact (H4 negate_kernel fill_called.2 _ _ eq_refl).
Defined.

Lemma mapped_released_on_every_exit_witness :
  __enter__ (mapped (OfBuffer buffer8)) device8
  = (OK ({| ctx_b := OfBuffer buffer8; self_mapped := Some 0 |}, 0),
     (__enter__ (mapped (OfBuffer buffer8)) device8).2)
  ∧ is_Some (host_maps (__enter__ (mapped (OfBuffer buffer8)) device8).2
             !! 0)
  ∧ host_maps (with_mapped (OfBuffer buffer8) failing_use device8).2 !! 0
    = None
  ∧ (with_mapped (OfBuffer buffer8) failing_use device8).1
    = Raise (Exception "the use of the view failed")
  ∧ ¬ host_mapped 0 (with_mapped (OfBuffer buffer8) failing_use device8).2.
Proof.
  assert (Henter :
    __enter__ (mapped (OfBuffer buffer8)) device8
    = (OK ({| ctx_b := OfBuffer buffer8; self_mapped := Some 0 |}, 0),
       (__enter__ (mapped (OfBuffer buffer8)) device8).2))
    by reflexivity.
  destruct (mapped_released_on_every_exit (OfBuffer buffer8) failing_use
              device8 _ _ _ Henter) as (H1 & H2 & H3 & H4).
  split; [exact Henter|]. split; [exact H1|]. split; [exact H2|].
  split.
  - apply H3. exact H1.
  - apply H4; [|reflexivity].
    intros (m & mm & Hm & _). cbn in Hm. by rewrite lookup_empty in Hm.
Defined.

End Instances.

(** ** More on the vector and matrix library *)

Section ChunkFacts.
Context {A : Type}.

Lemma chunks_fuel_exact (k n fuel : nat) (l : list A) :
  0 < k → length l = n * k → n ≤ fuel →
  length (chunks_fuel fuel k l) = n
  ∧ Forall (fun row => length row = k) (chunks_fuel fuel k l).
Proof.
  intros Hk. revert fuel l. induction n as [|n IH]; intros fuel l Hlen Hfuel.
  - destruct l; [|discriminate]. by destruct fuel.
  - destruct fuel as [|fuel]; [lia|]. destruct l as [|x l]; [cbn in Hlen; lia|].
    cbn [chunks_fuel].
    destruct (IH fuel (drop k (x :: l))) as [IH1 IH2].
    + rewrite length_drop. lia.
    + lia.
    + split; [cbn; by rewrite IH1|].
      constructor; [|done]. rewrite length_take. lia.
Qed.

Lemma chunks_exact (k n : nat) (l : list A) :
  0 < k → length l = n * k →
  length (chunks k l) = n ∧ Forall (fun row => length row = k) (chunks k l).
Proof.
  intros Hk Hlen. apply chunks_fuel_exact; [done..|]. rewrite Hlen. nia.
Qed.

Lemma length_drop_padding (n : nat) (l : list A) :
  length l = n * 4 → length (drop_padding l) = n * 3.
Proof.
  intros Hlen. unfold drop_padding.
  destruct (chunks_exact 4 n l) as [Hn Hrows]; [lia|done|].
  clear Hlen. revert n Hn. induction Hrows as [|row rows Hrow _ IH]; intros n Hn.
  - cbn in *. lia.
  - destruct n as [|n]; [discriminate|]. cbn in *.
    rewrite length_app, length_take, Hrow, (IH n) by lia. lia.
Qed.

End ChunkFacts.

Section ToArrayFacts.
Open Scope nat_scope.

Lemma product_app (s t : list nat) :
  foldr Nat.mul 1 (s ++ t) = foldr Nat.mul 1 s * foldr Nat.mul 1 t.
Proof. induction s as [|x s IH]; cbn; [lia|]. rewrite IH. lia. Qed.

(** X1: [to_array] turns a well-formed array into a well-formed plain
    [float32] array: the trailing axis it adds (2, 3, 4 or 4 x 4) and
    the lanes it keeps agree, also when the padding lanes of a [float3]
    array are cut out; and [to_array] leaves its own results alone. *)
Theorem to_array_well_formed (v : ndarray R) :
  well_formed v →
  well_formed (to_array v)
  ∧ dtype (to_array v) = float32
  ∧ to_array (to_array v) = to_array v.
Proof.
  unfold well_formed. destruct v as [d s l]. cbn [dtype shape lanes].
  intros Hwf. unfold to_array. cbn [dtype shape lanes].
  destruct d; cbn [itemlanes] in Hwf.
  - destruct (decide (s = [])) as [->|Hs]; cbn [dtype shape lanes].
    + split; [cbn in *; lia|]. split; [done|]. done.
    + split; [done|]. split; [done|]. by rewrite decide_False.
  - assert (Hne : s ++ [2] ≠ []) by (by destruct s).
    destruct (decide (s = [])); cbn [dtype shape lanes itemlanes];
      rewrite product_app; (split; [cbn; lia|]); (split; [done|]);
      by rewrite decide_False.
  - assert (Hne : s ++ [3] ≠ []) by (by destruct s).
    destruct (decide (s = [])); cbn [dtype shape lanes itemlanes];
      rewrite product_app, (length_drop_padding (foldr Nat.mul 1 s)) by done;
      (split; [cbn; lia|]); (split; [done|]); by rewrite decide_False.
  - assert (Hne : s ++ [4] ≠ []) by (by destruct s).
    destruct (decide (s = [])); cbn [dtype shape lanes itemlanes];
      rewrite product_app; (split; [cbn; lia|]); (split; [done|]);
      by rewrite decide_False.
  - assert (Hne : s ++ [4; 4] ≠ []) by (by destruct s).
    destruct (decide (s = [])); cbn [dtype shape lanes itemlanes];
      rewrite product_app; (split; [cbn; lia|]); (split; [done|]);
      by rewrite decide_False.
Qed.

Lemma to_array_well_formed_witness :
  well_formed (Ndarray float3 [2] [1; 2; 3; 0; 4; 5; 6; 0]%R)
  ∧ to_array (Ndarray float3 [2] [1; 2; 3; 0; 4; 5; 6; 0]%R)
    = Ndarray float32 [2; 3] [1; 2; 3; 4; 5; 6]%R
  ∧ well_formed (to_array (Ndarray float3 [2] [1; 2; 3; 0; 4; 5; 6; 0]%R)).
Proof.
  assert (H : well_formed (Ndarray float3 [2] [1; 2; 3; 0; 4; 5; 6; 0]%R))
    by reflexivity.
  split; [exact H|]. split; [reflexivity|].
  exact (proj1 (to_array_well_formed _ H)).
Defined.

End ToArrayFacts.

Section DotFacts.
Open Scope R_scope.

Lemma np_mul_comm (u v : list R) : np_mul u v = np_mul v u.
Proof.
  unfold np_mul. revert v. induction u as [|a u IH]; intros [|b v]; cbn;
    try done. by rewrite IH, Rmult_comm.
Qed.

Lemma length_field (i : nat) (v : ndarray R) :
  well_formed v →
  length (field 0 i v) = foldr Nat.mul 1%nat (shape v).
Proof.
  unfold well_formed, field. intros Hwf. rewrite length_fmap.
  apply chunks_exact; [by destruct (dtype v); cbn; lia | done].
Qed.

(** X2: [dot] is symmetric, in its results and in its errors. *)
Theorem dot_comm (v1 v2 : ndarray R) : dot v1 v2 = dot v2 v1.
Proof.
  unfold dot.
  destruct (decide (dtype v1 = dtype v2)) as [Hd|Hd].
  2:{ rewrite (bool_decide_eq_false_2 _ Hd).
      by rewrite (bool_decide_eq_false_2 (dtype v2 = dtype v1)). }
  destruct (decide (shape v1 = shape v2)) as [Hs|Hs].
  2:{ rewrite (bool_decide_eq_true_2 _ Hd).
      rewrite (bool_decide_eq_true_2 (dtype v2 = dtype v1)) by done.
      rewrite (bool_decide_eq_false_2 _ Hs).
      by rewrite (bool_decide_eq_false_2 (shape v2 = shape v1)). }
  rewrite !bool_decide_eq_true_2 by done. cbn [negb]. rewrite <- Hd.
  by rewrite !(np_mul_comm (field 0 _ v1)).
Qed.

(** X3: when [dot] returns a number its operands have the same dtype,
    one of [float2], [float3], [float4], and the same shape; and if they
    are well-formed arrays they hold one vector each: on arrays of
    several vectors [dot] raises. *)
Theorem dot_accepts (v1 v2 : ndarray R) (r : R) :
  dot v1 v2 = OK r →
  dtype v1 = dtype v2
  ∧ shape v1 = shape v2
  ∧ (dtype v1 = float2 ∨ dtype v1 = float3 ∨ dtype v1 = float4)
  ∧ (well_formed v1 → well_formed v2 →
     foldr Nat.mul 1%nat (shape v1) = 1%nat).
Proof.
  unfold dot.
  destruct (decide (dtype v1 = dtype v2)) as [Hd|Hd].
  2:{ by rewrite bool_decide_eq_false_2. }
  destruct (decide (shape v1 = shape v2)) as [Hs|Hs].
  2:{ rewrite bool_decide_eq_true_2 by done.
      by rewrite (bool_decide_eq_false_2 (shape _ = shape _)). }
  rewrite !bool_decide_eq_true_2 by done. cbn [negb].
  intros Hitem. split; [done|]. split; [done|].
  assert (Hone : ∀ l : list R, item l = OK r → length l = 1%nat).
  { intros [|x [|y l]]; by cbn. }
  split.
  - destruct (dtype v1); try discriminate; eauto.
  - intros Hwf1 Hwf2.
    assert (Hx : length (np_mul (field 0 0 v1) (field 0 0 v2))
                 = foldr Nat.mul 1%nat (shape v1)).
    { unfold np_mul. rewrite length_zip_with, !length_field, Hs by done. lia. }
    assert (Hy : length (np_mul (field 0 1 v1) (field 0 1 v2))
                 = foldr Nat.mul 1%nat (shape v1)).
    { unfold np_mul. rewrite length_zip_with, !length_field, Hs by done. lia. }
    assert (Hz : length (np_mul (field 0 2 v1) (field 0 2 v2))
                 = foldr Nat.mul 1%nat (shape v1)).
    { unfold np_mul. rewrite length_zip_with, !length_field, Hs by done. lia. }
    assert (Hw : length (np_mul (field 0 3 v1) (field 0 3 v2))
                 = foldr Nat.mul 1%nat (shape v1)).
    { unfold np_mul. rewrite length_zip_with, !length_field, Hs by done. lia. }
    destruct (dtype v1); try discriminate; apply Hone in Hitem;
      unfold np_add in Hitem; rewrite !length_zip_with in Hitem; lia.
Qed.

Lemma dot_accepts_witness :
  dot (Ndarray float3 [] [1; 2; 3; 0]) (Ndarray float3 [] [4; 5; 6; 0])
  = OK (1 * 4 + 2 * 5 + 3 * 6)
  ∧ well_formed (Ndarray float3 [] [1; 2; 3; 0])
  ∧ well_formed (Ndarray float3 [] [4; 5; 6; 0])
  ∧ foldr Nat.mul 1%nat (shape (Ndarray float3 [] [1; 2; 3; 0])) = 1%nat.
Proof.
  assert (H : dot (Ndarray float3 [] [1; 2; 3; 0])
                  (Ndarray float3 [] [4; 5; 6; 0])
              = OK (1 * 4 + 2 * 5 + 3 * 6)) by reflexivity.
  split; [exact H|]. split; [reflexivity|]. split; [reflexivity|].
  exact (proj2 (proj2 (proj2 (dot_accepts _ _ _ H))) eq_refl eq_refl).
Defined.

End DotFacts.

Section TransformFacts.
Open Scope R_scope.

Lemma matmul_matrix
    a00 a01 a02 a03 a10 a11 a12 a13 a20 a21 a22 a23 a30 a31 a32 a33
    b00 b01 b02 b03 b10 b11 b12 b13 b20 b21 b22 b23 b30 b31 b32 b33 :
  matmul (Ndarray float4x4 [] [a00; a01; a02; a03; a10; a11; a12; a13;
                               a20; a21; a22; a23; a30; a31; a32; a33])
         (Ndarray float4x4 [] [b00; b01; b02; b03; b10; b11; b12; b13;
                               b20; b21; b22; b23; b30; b31; b32; b33])
  = OK (Tuple
      [a00 * b00 + (a01 * b10 + (a02 * b20 + (a03 * b30 + 0)));
       a00 * b01 + (a01 * b11 + (a02 * b21 + (a03 * b31 + 0)));
       a00 * b02 + (a01 * b12 + (a02 * b22 + (a03 * b32 + 0)));
       a00 * b03 + (a01 * b13 + (a02 * b23 + (a03 * b33 + 0)));
       a10 * b00 + (a11 * b10 + (a12 * b20 + (a13 * b30 + 0)));
       a10 * b01 + (a11 * b11 + (a12 * b21 + (a13 * b31 + 0)));
       a10 * b02 + (a11 * b12 + (a12 * b22 + (a13 * b32 + 0)));
       a10 * b03 + (a11 * b13 + (a12 * b23 + (a13 * b33 + 0)));
       a20 * b00 + (a21 * b10 + (a22 * b20 + (a23 * b30 + 0)));
       a20 * b01 + (a21 * b11 + (a22 * b21 + (a23 * b31 + 0)));
       a20 * b02 + (a21 * b12 + (a22 * b22 + (a23 * b32 + 0)));
       a20 * b03 + (a21 * b13 + (a22 * b23 + (a23 * b33 + 0)));
       a30 * b00 + (a31 * b10 + (a32 * b20 + (a33 * b30 + 0)));
       a30 * b01 + (a31 * b11 + (a32 * b21 + (a33 * b31 + 0)));
       a30 * b02 + (a31 * b12 + (a32 * b22 + (a33 * b32 + 0)));
       a30 * b03 + (a31 * b13 + (a32 * b23 + (a33 * b33 + 0)))]).
Proof. reflexivity. Qed.

(** Two tuples are equal when their components are, up to ring
    identities. *)
Ltac tuple_ring :=
  do 2 f_equal; repeat (apply (f_equal2 cons); [ring|]); reflexivity.

Ltac tuple_field :=
  do 2 f_equal; repeat (apply (f_equal2 cons); [field; auto|]); reflexivity.

(** X4: [identity()] is neutral for [matmul]: a [float4] vector times
    the identity, and a matrix times the identity on either side, give
    back the components of the vector or matrix. *)
Theorem matmul_identity :
  ∃ i, identity = OK (Nd i)
  ∧ (∀ v0 v1 v2 v3,
       matmul (Ndarray float4 [] [v0; v1; v2; v3]) i
       = OK (Tuple [v0; v1; v2; v3]))
  ∧ (∀ m00 m01 m02 m03 m10 m11 m12 m13 m20 m21 m22 m23 m30 m31 m32 m33,
       let ms := [m00; m01; m02; m03; m10; m11; m12; m13;
                  m20; m21; m22; m23; m30; m31; m32; m33] in
       matmul (Ndarray float4x4 [] ms) i = OK (Tuple ms)
       ∧ matmul i (Ndarray float4x4 [] ms) = OK (Tuple ms)).
Proof.
  eexists. split; [reflexivity|]. exact_lanes. split.
  - intros. rewrite matmul_vector. tuple_ring.
  - intros. subst ms. split; rewrite matmul_matrix; tuple_ring.
Qed.

(** X5: a row vector (x, y, z, w) times [translate(tx, ty, tz)] is
    (x + w tx, y + w ty, z + w tz, w): points (w = 1) are moved,
    directions (w = 0) are not. *)
Theorem matmul_translate tx ty tz x y z w :
  ∃ m, translate (Components [tx; ty; tz]) = OK (Nd m)
       ∧ matmul (Ndarray float4 [] [x; y; z; w]) m
         = OK (Tuple [x + w * tx; y + w * ty; z + w * tz; w]).
Proof.
  eexists. split; [reflexivity|]. exact_lanes. rewrite matmul_vector. tuple_ring.
Qed.

(** X6: a row vector times [scale(sx, sy, sz)] is scaled component by
    component, with w kept; [scale(s)] with one number is
    [scale(s, s, s)], and [scale(v)] with a [float3] value is [scale] of
    its three components. *)
Theorem matmul_scale sx sy sz x y z w :
  (∃ m, scale (Components [sx; sy; sz]) = OK (Nd m)
        ∧ matmul (Ndarray float4 [] [x; y; z; w]) m
          = OK (Tuple [x * sx; y * sy; z * sz; w]))
  ∧ scale (Components [sx]) = scale (Components [sx; sx; sx])
  ∧ (∀ pad, scale (Array (Ndarray float3 [] [sx; sy; sz; pad]))
            = scale (Components [sx; sy; sz])).
Proof.
  split; [|split; [reflexivity|intros; reflexivity]].
  eexists. split; [reflexivity|]. exact_lanes. rewrite matmul_vector. tuple_ring.
Qed.

(** X7: transforms compose under [matmul]: the product of two
    translations holds the components of the translation by the sum,
    the product of two scalings those of the scaling by the products. *)
Theorem matmul_composes ax ay az bx by_ bz :
  (∃ ma mb mab,
     translate (Components [ax; ay; az]) = OK (Nd ma)
     ∧ translate (Components [bx; by_; bz]) = OK (Nd mb)
     ∧ translate (Components [ax + bx; ay + by_; az + bz]) = OK (Nd mab)
     ∧ matmul ma mb = OK (Tuple (lanes mab)))
  ∧ (∃ ma mb mab,
     scale (Components [ax; ay; az]) = OK (Nd ma)
     ∧ scale (Components [bx; by_; bz]) = OK (Nd mb)
     ∧ scale (Components [ax * bx; ay * by_; az * bz]) = OK (Nd mab)
     ∧ matmul ma mb = OK (Tuple (lanes mab))).
Proof.
  split; do 3 eexists; (split; [reflexivity|]); (split; [reflexivity|]);
    (split; [reflexivity|]); exact_lanes; rewrite matmul_matrix; cbn [lanes];
    tuple_ring.
Qed.

(** The forms of the arguments of [translate]: a [float3] value
    stands for its three components; one number alone is taken for a
    vector and fails on its missing [shape]; two numbers, four numbers,
    or a [float2] or [float4] value cannot be unpacked in x, y, z. *)
Lemma translate_arguments x y z w :
  translate (Array (Ndarray float3 [] [x; y; z; w]))
    = translate (Components [x; y; z])
  ∧ translate (Components [x])
    = Raise (AttributeError "'float' object has no attribute 'shape'")
  ∧ translate (Components []) = Raise ValueError
  ∧ translate (Components [x; y]) = Raise ValueError
  ∧ translate (Components [x; y; z; w]) = Raise ValueError
  ∧ translate (Array (Ndarray float2 [] [x; y])) = Raise ValueError
  ∧ translate (Array (Ndarray float4 [] [x; y; z; w])) = Raise ValueError.
Proof. repeat split. Qed.

End TransformFacts.

Section CrossFacts.
Open Scope R_scope.

Lemma cross_float3 x1 y1 z1 p1 x2 y2 z2 p2 :
  cross (Ndarray float3 [] [x1; y1; z1; p1]) (Ndarray float3 [] [x2; y2; z2; p2])
  = OK (Ndarray float3 []
          [y1 * z2 - z1 * y2; z1 * x2 - x1 * z2; x1 * y2 - y1 * x2; 0]).
Proof. reflexivity. Qed.

(** X8: the cross product of two [float3] values is a [float3] value
    orthogonal to both, and it changes sign when the operands are
    swapped; in particular the cross product of a vector with itself is
    the zero vector. *)
Theorem cross_orthogonal x1 y1 z1 p1 x2 y2 z2 p2 :
  let a := Ndarray float3 [] [x1; y1; z1; p1] in
  let b := Ndarray float3 [] [x2; y2; z2; p2] in
  ∃ c, cross a b = OK c
       ∧ dtype c = float3 ∧ shape c = []
       ∧ dot c a = OK 0
       ∧ dot c b = OK 0
       ∧ cross b a = OK (Ndarray float3 [] ((fun r => - r) <$> lanes c))
       ∧ cross a a = OK (Ndarray float3 [] [0; 0; 0; 0]).
Proof.
  intros a b. subst a b. eexists. split; [apply cross_float3|].
  split; [done|]. split; [done|].
  split; [rewrite dot_float3; f_equal; ring|].
  split; [rewrite dot_float3; f_equal; ring|].
  split; rewrite cross_float3; cbn [lanes fmap list_fmap]; do 2 f_equal;
    repeat (apply (f_equal2 cons); [ring|]); reflexivity.
Qed.

Lemma cross_component_ok i j k l (v1 v2 : ndarray R) r :
  cross_component i j k l v1 v2 = OK r →
  (k < titled_fields (dtype v1))%nat ∧ (j < titled_fields (dtype v2))%nat.
Proof.
  assert (Hget : ∀ i v l, getitem i v = OK l →
                          (i < titled_fields (dtype v))%nat).
  { clear. intros i v l. unfold getitem.
    destruct (decide (dtype v = float32)); [discriminate|].
    by destruct (decide (i < titled_fields (dtype v))%nat). }
  unfold cross_component.
  destruct (getitem i v1) as [a|]; [|discriminate]. cbn [mbind result_bind].
  destruct (getitem j v2) as [b|] eqn:Hb; [|discriminate].
  cbn [mbind result_bind].
  destruct (np_broadcast Rmult _ _ a b); [|discriminate].
  cbn [mbind result_bind].
  destruct (getitem k v1) as [a'|] eqn:Ha'; [|discriminate].
  intros _. eauto.
Qed.

(** X9: [cross] reads the fields x, y and z of both operands: whenever
    it returns, neither operand is a [float2] value or a plain array,
    and the result is a single [float3] value with a zero padding lane,
    whatever the dtype of the operands. *)
Theorem cross_accepts (v1 v2 c : ndarray R) :
  cross v1 v2 = OK c →
  (3 ≤ titled_fields (dtype v1))%nat
  ∧ (3 ≤ titled_fields (dtype v2))%nat
  ∧ dtype c = float3 ∧ shape c = [] ∧ length (lanes c) = 4%nat
  ∧ nth 3 (lanes c) 1 = 0.
Proof.
  unfold cross.
  destruct (cross_component 1 2 2 1 v1 v2) as [cx|] eqn:Hx; [|discriminate].
  cbn [mbind result_bind].
  destruct (cross_component 2 0 0 2 v1 v2) as [cy|]; [|discriminate].
  cbn [mbind result_bind].
  destruct (cross_component 0 1 1 0 v1 v2) as [cz|]; [|discriminate].
  cbn [mbind result_bind].
  apply cross_component_ok in Hx as [H1 H2].
  intros [= <-]. cbn. repeat split; lia.
Qed.

Lemma cross_accepts_witness :
  cross (Ndarray float4 [] [1; 0; 0; 1]) (Ndarray float4 [1%nat] [0; 1; 0; 1])
  = OK (Ndarray float3 [] [0 * 0 - 0 * 1; 0 * 0 - 1 * 0; 1 * 1 - 0 * 0; 0])
  ∧ (3 ≤ titled_fields float4)%nat
  ∧ nth 3 [0 * 0 - 0 * 1; 0 * 0 - 1 * 0; 1 * 1 - 0 * 0; 0] 1 = 0.
Proof.
  assert (H : cross (Ndarray float4 [] [1; 0; 0; 1])
                    (Ndarray float4 [1%nat] [0; 1; 0; 1])
              = OK (Ndarray float3 []
                      [0 * 0 - 0 * 1; 0 * 0 - 1 * 0; 1 * 1 - 0 * 0; 0]))
    by reflexivity.
  destruct (cross_accepts _ _ _ H) as (H1 & _ & _ & _ & _ & H6).
  split; [exact H|]. split; [exact H1|]. exact H6.
Defined.

End CrossFacts.

Section RotateFacts.
Open Scope R_scope.

Lemma rotate_float3 angle x y z p :
  rotate angle (Ndarray float3 [] [x; y; z; p])
  = OK (Nd (Ndarray float4x4 []
      [x * x * (1 - cos angle) + cos angle;
       y * x * (1 - cos angle) + z * sin angle;
       z * x * (1 - cos angle) - y * sin angle; 0;
       x * y * (1 - cos angle) - z * sin angle;
       y * y * (1 - cos angle) + cos angle;
       z * y * (1 - cos angle) + x * sin angle; 0;
       x * z * (1 - cos angle) + y * sin angle;
       y * z * (1 - cos angle) - x * sin angle;
       z * z * (1 - cos angle) + cos angle; 0;
       0; 0; 0; 1])).
Proof. reflexivity. Qed.

(** X10: for a unit axis, [rotate(angle, axis)] leaves the axis fixed
    (as a row vector, with any w), and [rotate(-angle, axis)] undoes it:
    their product has the components of the identity.  For any axis the
    rotation by the angle 0 is the identity. *)
Theorem rotate_about_unit_axis angle x y z p :
  x * x + y * y + z * z = 1 →
  let axis := Ndarray float3 [] [x; y; z; p] in
  ∃ m m' i,
    rotate angle axis = OK (Nd m)
    ∧ rotate (- angle) axis = OK (Nd m')
    ∧ identity = OK (Nd i)
    ∧ (∀ w, matmul (Ndarray float4 [] [x; y; z; w]) m
            = OK (Tuple [x; y; z; w]))
    ∧ matmul m m' = OK (Tuple (lanes i))
    ∧ rotate 0 axis = identity.
Proof.
  intros Hunit axis. subst axis.
  do 3 eexists. split; [apply rotate_float3|].
  split; [rewrite rotate_float3, cos_neg, sin_neg; reflexivity|].
  split; [reflexivity|].
  split; [|split];
    [| |rewrite rotate_float3, cos_0, sin_0;
        change identity with
          (OK (Nd (Ndarray float4x4 []
                     [1; 0; 0; 0; 0; 1; 0; 0; 0; 0; 1; 0; 0; 0; 0; 1])));
        do 3 f_equal;
        repeat (apply (f_equal2 cons); [ring|]); reflexivity].
  all: pose proof (sin2_cos2 angle) as Hsc; unfold Rsqr in Hsc;
    set (c := cos angle) in *; set (s := sin angle) in *; clearbody c s.
  - intros w. rewrite matmul_vector. do 2 f_equal.
    repeat (apply (f_equal2 cons); [nsatz|]). reflexivity.
  - rewrite matmul_matrix. cbn [lanes]. do 2 f_equal.
    repeat (apply (f_equal2 cons); [nsatz|]). reflexivity.
Qed.

End RotateFacts.

Section CameraFacts.
Open Scope R_scope.

Lemma rotate_about_unit_axis_witness :
  0 * 0 + 0 * 0 + 1 * 1 = 1
  ∧ ∃ m m' i,
      rotate 1 (Ndarray float3 [] [0; 0; 1; 0]) = OK (Nd m)
      ∧ rotate (- 1) (Ndarray float3 [] [0; 0; 1; 0]) = OK (Nd m')
      ∧ identity = OK (Nd i)
      ∧ (∀ w, matmul (Ndarray float4 [] [0; 0; 1; w]) m
              = OK (Tuple [0; 0; 1; w]))
      ∧ matmul m m' = OK (Tuple (lanes i))
      ∧ rotate 0 (Ndarray float3 [] [0; 0; 1; 0]) = identity.
Proof.
  assert (H : 0 * 0 + 0 * 0 + 1 * 1 = 1) by lra.
  split; [exact H|]. exact (rotate_about_unit_axis 1 0 0 1 0 H).
Defined.



(** X12: on a nonzero [float3] value [normalize] returns a [float3]
    value of length 1, with a zero padding lane. *)
Theorem normalize_float3_is_unit x y z p :
  (x, y, z) ≠ (0, 0, 0) →
  ∃ n, normalize (Ndarray float3 [] [x; y; z; p]) = OK n
       ∧ dtype n = float3 ∧ shape n = [] ∧ nth 3 (lanes n) 1 = 0
       ∧ dot n n = OK 1.
Proof.
  intros Hnz.
  destruct (normalize_float3_unit x y z p Hnz) as (n & Hn & Hd & Hdot).
  exists n. rewrite normalize_float3 in Hn. injection Hn as <-. done.
Qed.

Lemma normalize_float3_is_unit_witness :
  (0, 3, 4) ≠ (0, 0, 0)
  ∧ ∃ n, normalize (Ndarray float3 [] [0; 3; 4; 7]) = OK n
         ∧ dtype n = float3 ∧ shape n = [] ∧ nth 3 (lanes n) 1 = 0
         ∧ dot n n = OK 1.
Proof.
  assert (H : (0, 3, 4) ≠ (0, 0, 0)).
  { intros E. injection E. intros. lra. }
  split; [exact H|]. exact (normalize_float3_is_unit 0 3 4 7 H).
Defined.

Lemma dot_float4 s x1 y1 z1 w1 x2 y2 z2 w2 :
  dot (Ndarray float4 s [x1; y1; z1; w1]) (Ndarray float4 s [x2; y2; z2; w2])
  = OK (x1 * x2 + y1 * y2 + z1 * z2 + w1 * w2).
Proof.
  unfold dot. cbn [dtype shape].
  rewrite !bool_decide_eq_true_2 by done. reflexivity.
Qed.

(** X13: on a nonzero [float2] or [float4] value [normalize] returns
    the vector divided by the square of its length, in a one-element
    array of the same dtype: the result has squared length
    1 / dot(v, v), so it is a unit vector only if [v] was one. *)
Theorem normalize_float2_float4_law x y z w :
  (x * x + y * y ≠ 0 →
   ∃ n r, normalize (Ndarray float2 [] [x; y]) = OK n
          ∧ dtype n = float2 ∧ shape n = [1%nat]
          ∧ lanes n = [x / (x * x + y * y); y / (x * x + y * y)]
          ∧ dot n n = OK r ∧ r * (x * x + y * y) = 1)
  ∧ (x * x + y * y + z * z + w * w ≠ 0 →
     let d := x * x + y * y + z * z + w * w in
     ∃ n r, normalize (Ndarray float4 [] [x; y; z; w]) = OK n
            ∧ dtype n = float4 ∧ shape n = [1%nat]
            ∧ lanes n = [x / d; y / d; z / d; w / d]
            ∧ dot n n = OK r ∧ r * d = 1).
Proof.
  assert (Hsq : ∀ d a : R, d ≠ 0 → 0 <= d → a / sqrt d / sqrt d = a / d).
  { intros d a Hd Hpos.
    assert (Hs : sqrt d * sqrt d = d) by (by apply sqrt_sqrt).
    assert (Hs0 : sqrt d ≠ 0) by (intros E; rewrite E in Hs; lra).
    rewrite <- Hs at 3. field. done. }
  split.
  - intros Hd. assert (0 <= x * x + y * y) by nra.
    do 2 eexists. split; [apply normalize_float2|]. cbv zeta.
    rewrite !Hsq by done.
    split; [done|]. split; [done|]. split; [done|].
    split; [apply dot_float2|]. field. done.
  - intros Hd d. subst d.
    assert (0 <= x * x + y * y + z * z + w * w) by nra.
    do 2 eexists. split; [apply normalize_float4|]. cbv zeta.
    rewrite !Hsq by done.
    split; [done|]. split; [done|]. split; [done|].
    split; [apply dot_float4|]. field. done.
Qed.

Lemma normalize_float2_float4_law_witness :
  3 * 3 + 4 * 4 ≠ 0
  ∧ ∃ n r, normalize (Ndarray float2 [] [3; 4]) = OK n
           ∧ dtype n = float2 ∧ shape n = [1%nat]
           ∧ lanes n = [3 / (3 * 3 + 4 * 4); 4 / (3 * 3 + 4 * 4)]
           ∧ dot n n = OK r ∧ r * (3 * 3 + 4 * 4) = 1.
Proof.
  assert (H : 3 * 3 + 4 * 4 ≠ 0) by lra.
  split; [exact H|].
  exact (proj1 (normalize_float2_float4_law 3 4 0 0) H).
Defined.

End CameraFacts.

Section LookAtFacts.
Open Scope R_scope.

Lemma direction_float3 fx fy fz pf tx ty tz pt :
  direction (Ndarray float3 [] [fx; fy; fz; pf])
            (Ndarray float3 [] [tx; ty; tz; pt])
  = normalize (Ndarray float3 [] [tx - fx; ty - fy; tz - fz; 0]).
Proof. reflexivity. Qed.

(** X14: [direction(f, t)] of two [float3] points that differ is a
    [float3] value of length 1. *)
Theorem direction_is_unit fx fy fz pf tx ty tz pt :
  (tx - fx, ty - fy, tz - fz) ≠ (0, 0, 0) →
  ∃ d, direction (Ndarray float3 [] [fx; fy; fz; pf])
                 (Ndarray float3 [] [tx; ty; tz; pt]) = OK d
       ∧ dtype d = float3 ∧ shape d = []
       ∧ dot d d = OK 1.
Proof.
  intros Hne. rewrite direction_float3.
  destruct (normalize_float3_unit _ _ _ 0 Hne) as (n & Hn & Hd & Hdot).
  exists n. rewrite normalize_float3 in Hn. injection Hn as <-.
  by rewrite normalize_float3.
Qed.

Lemma direction_is_unit_witness :
  (4 - 1, 6 - 2, 3 - 3) ≠ (0, 0, 0)
  ∧ ∃ d, direction (Ndarray float3 [] [1; 2; 3; 0])
                   (Ndarray float3 [] [4; 6; 3; 0]) = OK d
         ∧ dtype d = float3 ∧ shape d = []
         ∧ dot d d = OK 1.
Proof.
  assert (H : (4 - 1, 6 - 2, 3 - 3) ≠ (0, 0, 0)).
  { intros E. injection E. intros. lra. }
  split; [exact H|]. exact (direction_is_unit 1 2 3 0 4 6 3 0 H).
Defined.

Lemma scalar_field_float3 a b c d :
  scalar_field 0 (Ndarray float3 [] [a; b; c; d]) = OK a
  ∧ scalar_field 1 (Ndarray float3 [] [a; b; c; d]) = OK b
  ∧ scalar_field 2 (Ndarray float3 [] [a; b; c; d]) = OK c.
Proof. done. Qed.

(** The matrix that [look_at] returns for three [float3] values: its
    columns are the three axes and its last row holds the negated dot
    products of the axes with the camera position; the z axis is the unit vector from the
    camera to the target, the x axis the unit vector along
    up × z, the y axis z × x. *)
Lemma look_at_axes cx cy cz cp tx ty tz tp ux uy uz up :
  let s := sqrt ((tx - cx) * (tx - cx) + (ty - cy) * (ty - cy)
                 + (tz - cz) * (tz - cz)) in
  let zx := (tx - cx) / s in
  let zy := (ty - cy) / s in
  let zz := (tz - cz) / s in
  let nx := uy * zz - uz * zy in
  let ny := uz * zx - ux * zz in
  let nz := ux * zy - uy * zx in
  let r := sqrt (nx * nx + ny * ny + nz * nz) in
  let xx := nx / r in
  let xy := ny / r in
  let xz := nz / r in
  let yx := zy * xz - zz * xy in
  let yy := zz * xx - zx * xz in
  let yz := zx * xy - zy * xx in
  look_at (Ndarray float3 [] [cx; cy; cz; cp])
          (Ndarray float3 [] [tx; ty; tz; tp])
          (Ndarray float3 [] [ux; uy; uz; up])
  = OK (Nd (Ndarray float4x4 []
      [xx; yx; zx; 0;
       xy; yy; zy; 0;
       xz; yz; zz; 0;
       - (xx * cx + xy * cy + xz * cz);
       - (yx * cx + yy * cy + yz * cz);
       - (zx * cx + zy * cy + zz * cz); 1])).
Proof.
  intros s zx zy zz nx ny nz r xx xy xz yx yy yz.
  unfold look_at. rewrite direction_float3, normalize_float3.
  cbv zeta. fold s. fold zx zy zz.
  cbn [mbind result_bind]. rewrite cross_float3. cbn [mbind result_bind].
  fold nx ny nz. rewrite normalize_float3. cbv zeta. fold r. fold xx xy xz.
  cbn [mbind result_bind]. rewrite cross_float3. cbn [mbind result_bind].
  fold yx yy yz. clearbody yx yy yz xx xy xz zx zy zz.
  destruct (scalar_field_float3 xx xy xz 0) as (-> & -> & ->).
  destruct (scalar_field_float3 yx yy yz 0) as (-> & -> & ->).
  destruct (scalar_field_float3 zx zy zz 0) as (-> & -> & ->).
  cbn [mbind result_bind]. rewrite !dot_float3. cbn [mbind result_bind].
  reflexivity.
Qed.

Lemma sum_squares_pos a b c : (a, b, c) ≠ (0, 0, 0) → 0 < a * a + b * b + c * c.
Proof.
  intros Hnz.
  destruct (Req_dec a 0) as [->|]; [|nra].
  destruct (Req_dec b 0) as [->|]; [|nra].
  destruct (Req_dec c 0) as [->|]; [|nra].
  by destruct Hnz.
Qed.

(** X15: for a [float3] camera, target and up vector, with the target
    away from the camera and the up vector not along the line from the
    camera to the target, [look_at] returns a view matrix: the row
    vector (camera, 1) times the matrix is the origin (0, 0, 0, 1), the
    target lands on the z axis at its distance from the camera, and the
    point one up vector above the camera lands in the plane x = 0 with
    a positive y. *)
Theorem look_at_sends_camera_to_origin cx cy cz cp tx ty tz tp ux uy uz up :
  (tx - cx, ty - cy, tz - cz) ≠ (0, 0, 0) →
  (uy * (tz - cz) - uz * (ty - cy),
   uz * (tx - cx) - ux * (tz - cz),
   ux * (ty - cy) - uy * (tx - cx)) ≠ (0, 0, 0) →
  ∃ m, look_at (Ndarray float3 [] [cx; cy; cz; cp])
               (Ndarray float3 [] [tx; ty; tz; tp])
               (Ndarray float3 [] [ux; uy; uz; up]) = OK (Nd m)
       ∧ dtype m = float4x4 ∧ shape m = []
       ∧ matmul (Ndarray float4 [] [cx; cy; cz; 1]) m
         = OK (Tuple [0; 0; 0; 1])
       ∧ matmul (Ndarray float4 [] [tx; ty; tz; 1]) m
         = OK (Tuple [0; 0;
                      sqrt ((tx - cx) * (tx - cx) + (ty - cy) * (ty - cy)
                            + (tz - cz) * (tz - cz)); 1])
       ∧ ∃ a b, matmul (Ndarray float4 [] [cx + ux; cy + uy; cz + uz; 1]) m
                = OK (Tuple [0; a; b; 1])
                ∧ 0 < a.
Proof.
  intros Hd Hc. rewrite look_at_axes. cbv zeta.
  set (D := (tx - cx) * (tx - cx) + (ty - cy) * (ty - cy)
            + (tz - cz) * (tz - cz)).
  assert (HD : 0 < D) by exact (sum_squares_pos _ _ _ Hd).
  set (s := sqrt D).
  assert (Hss : s * s = D) by (apply sqrt_sqrt; lra).
  assert (Hs : 0 < s) by (apply sqrt_lt_R0; exact HD).
  set (zx := (tx - cx) / s). set (zy := (ty - cy) / s).
  set (zz := (tz - cz) / s).
  set (nx := uy * zz - uz * zy). set (ny := uz * zx - ux * zz).
  set (nz := ux * zy - uy * zx).
  set (N := nx * nx + ny * ny + nz * nz).
  assert (HN : 0 < N).
  { apply sum_squares_pos. intros [= Ex Ey Ez]. apply Hc.
    assert (E1 : uy * (tz - cz) - uz * (ty - cy) = nx * s)
      by (subst nx zz zy; field; lra).
    assert (E2 : uz * (tx - cx) - ux * (tz - cz) = ny * s)
      by (subst ny zx zz; field; lra).
    assert (E3 : ux * (ty - cy) - uy * (tx - cx) = nz * s)
      by (subst nz zy zx; field; lra).
    rewrite E1, E2, E3, Ex, Ey, Ez. by rewrite !Rmult_0_l. }
  set (r := sqrt N).
  assert (Hrr : r * r = N) by (apply sqrt_sqrt; lra).
  assert (Hr : 0 < r) by (apply sqrt_lt_R0; exact HN).
  eexists. split; [reflexivity|]. split; [done|]. split; [done|].
  rewrite !matmul_vector. split; [|split].
  - do 2 f_equal. repeat (apply (f_equal2 cons); [ring|]). reflexivity.
  - do 2 f_equal.
    apply (f_equal2 cons);
      [subst nx ny nz zx zy zz; field; split; lra|].
    apply (f_equal2 cons);
      [subst nx ny nz zx zy zz; field; split; lra|].
    apply (f_equal2 cons).
    { transitivity (D / s); [subst zx zy zz D; field; lra|].
      rewrite <- Hss. field. lra. }
    apply (f_equal2 cons); [ring|]. reflexivity.
  - eexists _, _. split.
    + do 2 f_equal.
      apply (f_equal2 cons); [subst nx ny nz; field; lra|].
      apply (f_equal2 cons); [reflexivity|].
      apply (f_equal2 cons); [reflexivity|].
      apply (f_equal2 cons); [ring|]. reflexivity.
    + match goal with |- 0 < ?a => replace a with r end; [exact Hr|].
      transitivity (N / r); [rewrite <- Hrr; field; lra|].
      subst N nx ny nz. field. lra.
Qed.

Lemma look_at_sends_camera_to_origin_witness :
  (0 - 0, 0 - 0, 5 - 0) ≠ (0, 0, 0)
  ∧ (1 * (5 - 0) - 0 * (0 - 0), 0 * (0 - 0) - 0 * (5 - 0),
     0 * (0 - 0) - 1 * (0 - 0)) ≠ (0, 0, 0)
  ∧ ∃ m, look_at (Ndarray float3 [] [0; 0; 0; 0])
                 (Ndarray float3 [] [0; 0; 5; 0])
                 (Ndarray float3 [] [0; 1; 0; 0]) = OK (Nd m)
         ∧ dtype m = float4x4 ∧ shape m = []
         ∧ matmul (Ndarray float4 [] [0; 0; 0; 1]) m
           = OK (Tuple [0; 0; 0; 1])
         ∧ matmul (Ndarray float4 [] [0; 0; 5; 1]) m
           = OK (Tuple [0; 0;
                        sqrt ((0 - 0) * (0 - 0) + (0 - 0) * (0 - 0)
                              + (5 - 0) * (5 - 0)); 1])
         ∧ ∃ a b, matmul (Ndarray float4 [] [0 + 0; 0 + 1; 0 + 0; 1]) m
                  = OK (Tuple [0; a; b; 1])
                  ∧ 0 < a.
Proof.
  assert (H1 : (0 - 0, 0 - 0, 5 - 0) ≠ (0, 0, 0)).
  { intros E. injection E. intros. lra. }
  assert (H2 : (1 * (5 - 0) - 0 * (0 - 0), 0 * (0 - 0) - 0 * (5 - 0),
                0 * (0 - 0) - 1 * (0 - 0)) ≠ (0, 0, 0)).
  { intros E. injection E. intros. lra. }
  split; [exact H1|]. split; [exact H2|].
  exact (look_at_sends_camera_to_origin 0 0 0 0 0 0 5 0 0 1 0 0 H1 H2).
Defined.

End LookAtFacts.

(** ** More on declarations *)

Section DeclarationErrors.
Import Kernel.
Context {pyobj : Type}.
Variable dtype_to_ctype : annotation pyobj → result string.
Variable build_ok : string → bool.

Local Abbreviation cltype := (_get_annotation_as_cltype dtype_to_ctype).
Local Abbreviation render := (render_parameters dtype_to_ctype).

Lemma signature_items (f : function pyobj) s r :
  _get_signature f = OK (s, r) →
  s = (fun v => (name v, v)) <$> parameters f ∧ r = return_annotation f.
Proof.
  unfold _get_signature. destruct (forallb _ _); [|discriminate].
  by intros [= <- <-].
Qed.

Lemma mapM_cons_OK {X Y} (g : X → result Y) x s l :
  mapM g (x :: s) = OK l →
  ∃ y l', g x = OK y ∧ mapM g s = OK l' ∧ l = y :: l'.
Proof.
  cbn. destruct (g x) as [y|]; [|discriminate]. cbn.
  destruct (mapM g s) as [l'|]; [|discriminate]. cbn.
  intros [= <-]. eauto.
Qed.

Lemma render_raises (s : list (string * Param pyobj)) b kv :
  kv ∈ s →
  (∀ t, cltype (p_annotation kv.2) b ≠ OK t) →
  ∀ ps, render s b ≠ OK ps.
Proof.
  intros Hin Hbad ps. unfold render_parameters.
  destruct (mapM _ s) as [l|] eqn:Hm; [|discriminate]. exfalso.
  revert l Hm. induction Hin as [kv s|kv kv' s Hin IH]; intros l Hm;
    apply mapM_cons_OK in Hm as (y & l' & Hy & Hl' & _).
  - destruct (cltype (p_annotation kv.2) b) as [t|] eqn:Ht; [|discriminate].
    by destruct (Hbad t).
  - eauto.
Qed.

Lemma cltype_pointer_check (a : annotation pyobj) t :
  cltype a true = OK t → cltype a false = OK t.
Proof.
  destruct a as [| |s|[|a0 [|a1 l]]|o]; cbn; try done.
  destruct a0; try done.
Qed.

(** X16: the two declaration forms write parameters in the same way:
    a parameter list that [kernel_function] accepts is rendered to the
    same text by [kernel_main]; the check on pointers is the only
    difference between them. *)
Theorem render_parameters_agree (s : list (string * Param pyobj)) ps :
  render s true = OK ps → render s false = OK ps.
Proof.
  unfold render_parameters.
  destruct (mapM _ s) as [l|] eqn:Hm; [|discriminate]. cbn.
  intros [= <-].
  assert (Hm' : mapM (fun kv : string * Param pyobj =>
                        t ← cltype (p_annotation kv.2) false;
                        OK (t +:+ " " +:+ name kv.2)) s = OK l).
  { revert l Hm. induction s as [|kv s IH]; intros l Hm; [done|].
    apply mapM_cons_OK in Hm as (y & l' & Hy & Hl' & ->).
    destruct (cltype (p_annotation kv.2) true) as [t|] eqn:Ht;
      [|discriminate].
    cbn. rewrite (cltype_pointer_check _ _ Ht). cbn in *.
    injection Hy as <-. by rewrite (IH l' Hl'). }
  by rewrite Hm'.
Qed.

(** X17: a declaration that raises changes nothing: [__code__], the
    programs and the queue are as before.  A dispatcher call whose
    closure has no program yet, made when the device compiler refuses
    [__code__], raises the build error and changes nothing either: the
    closure still has no program, so the next call tries the build
    again. *)
Theorem failure_changes_nothing e :
  (∀ (f : function pyobj) st st',
     kernel_function (T := unit) dtype_to_ctype f st = (Raise e, st') →
     st' = st)
  ∧ (∀ (f : function pyobj) st st',
       kernel_main dtype_to_ctype f st = (Raise e, st') → st' = st)
  ∧ (∀ (dc : dispatch_closure pyobj) call_args st,
       programs st !! d_program (dc_self dc) = None →
       build_ok (__code__ st) = false →
       dispatch_call build_ok dc call_args st
       = (Raise (CLError "clBuildProgram failed"), st)).
Proof.
  split; [|split].
  - intros f st st'. rewrite kernel_function_cases.
    destruct (_get_signature f) as [[s r]|]; [|by intros [= _ <-]].
    destruct (cltype r true); [|by intros [= _ <-]].
    destruct (render s true); [discriminate|by intros [= _ <-]].
  - intros f st st'. rewrite kernel_main_cases.
    destruct (_get_signature f) as [[s r]|]; [|by intros [= _ <-]].
    destruct (negb (is_empty r)); [by intros [= _ <-]|].
    destruct (render s false); [discriminate|by intros [= _ <-]].
  - intros dc call_args st Hnone Hbad. rewrite dispatch_call_cases. cbn zeta.
    by rewrite Hnone, Hbad.
Qed.

(** X18: a function with a parameter that has no annotation is refused
    by both declaration forms with the same assertion error. *)
Theorem declarations_need_annotations (f : function pyobj) p st :
  p ∈ parameters f → p_annotation p = Empty →
  kernel_function (T := unit) dtype_to_ctype f st
    = (Raise (AssertionError
         "All arguments needs to be annotated with a type descriptor"), st)
  ∧ kernel_main dtype_to_ctype f st
    = (Raise (AssertionError
         "All arguments needs to be annotated with a type descriptor"), st).
Proof.
  intros Hin Hp.
  assert (Hsig : _get_signature f = Raise (AssertionError
            "All arguments needs to be annotated with a type descriptor")).
  { unfold _get_signature.
    destruct (forallb _ (parameters f)) eqn:Hall; [|done].
    rewrite forallb_forall in Hall.
    apply list_elem_of_In, Hall in Hin. by rewrite Hp in Hin. }
  by rewrite kernel_function_cases, kernel_main_cases, Hsig.
Qed.

(** X19: [kernel_function] never accepts a function with a parameter
    annotated by a one-element list whose element is not a string; and
    neither form accepts a parameter annotated by an empty list or by a
    list of two or more elements: a pointer annotation names exactly one
    type. *)
Theorem pointer_annotations_checked (f : function pyobj) p st :
  p ∈ parameters f →
  (∀ t, p_annotation p = AList [t] → (∀ s, t ≠ AStr s) →
        ∃ e, kernel_function (T := unit) dtype_to_ctype f st = (Raise e, st))
  ∧ (∀ l, p_annotation p = AList l → length l ≠ 1 →
          (∃ e, kernel_function (T := unit) dtype_to_ctype f st
                = (Raise e, st))
          ∧ (∃ e, kernel_main dtype_to_ctype f st = (Raise e, st))).
Proof.
  intros Hin.
  assert (Hfun : ∀ b, (∀ t, cltype (p_annotation p) b ≠ OK t) →
                 b = true →
                 ∃ e, kernel_function (T := unit) dtype_to_ctype f st
                      = (Raise e, st)).
  { intros b Hbad ->. rewrite kernel_function_cases.
    destruct (_get_signature f) as [[s r]|] eqn:Hsig; [|eauto].
    apply signature_items in Hsig as [-> _].
    destruct (cltype r true); [|eauto].
    destruct (render _ true) as [ps|] eqn:Hr; [|eauto].
    exfalso. eapply (render_raises _ true (name p, p)); [|exact Hbad|exact Hr].
    apply list_elem_of_fmap. eauto. }
  assert (Hmain : (∀ t, cltype (p_annotation p) false ≠ OK t) →
                  ∃ e, kernel_main dtype_to_ctype f st = (Raise e, st)).
  { intros Hbad. rewrite kernel_main_cases.
    destruct (_get_signature f) as [[s r]|] eqn:Hsig; [|eauto].
    apply signature_items in Hsig as [-> _].
    destruct (negb (is_empty r)); [eauto|].
    destruct (render _ false) as [ps|] eqn:Hr; [|eauto].
    exfalso. eapply (render_raises _ false (name p, p)); [|exact Hbad|exact Hr].
    apply list_elem_of_fmap. eauto. }
  split.
  - intros t Hp Hstr. apply (Hfun true); [|done].
    intros t'. rewrite Hp, (pointer_refused dtype_to_ctype t Hstr). done.
  - intros l Hp Hlen.
    assert (Hbad : ∀ b t, cltype (p_annotation p) b ≠ OK t).
    { intros b t. rewrite Hp. destruct l as [|a0 [|a1 l]]; cbn; try done. }
    split; [apply (Hfun true); [apply Hbad|done] | apply Hmain, Hbad].
Qed.

End DeclarationErrors.

(** ** More on sessions *)

Section SessionFacts.
Import Kernel.
Context {pyobj : Type}.
Variable dtype_to_ctype : annotation pyobj → result string.
Variable build_ok : string → bool.

Local Abbreviation run := (Kernel.run dtype_to_ctype build_ok).
Local Abbreviation step := (Kernel.step dtype_to_ctype build_ok).

Lemma append_assoc (a b c : string) : (a +:+ b) +:+ c = a +:+ (b +:+ c).
Proof.
  induction a as [|x a IH]; [done|].
  change (String x ((a +:+ b) +:+ c) = String x (a +:+ (b +:+ c))).
  by rewrite IH.
Qed.

Lemma append_empty_r (a : string) : a +:+ "" = a.
Proof.
  induction a as [|x a IH]; [done|].
  change (String x (a +:+ "") = String x a). by rewrite IH.
Qed.

Lemma contains_append needle hay text :
  contains needle hay → contains needle (hay +:+ text).
Proof.
  intros (pre & post & ->). exists pre, (post +:+ text).
  by rewrite !append_assoc.
Qed.

(** What one command does to the process. *)
Lemma step_cases c (s : State pyobj * list (Dispatcher pyobj)) :
  (* a declaration that fails, or a call that fails or has no target *)
  step c s = s
  (* an auxiliary function *)
  ∨ (∃ text, (step c s).2 = s.2
             ∧ __code__ (step c s).1 = __code__ s.1 +:+ text
             ∧ programs (step c s).1 = programs s.1
             ∧ next_closure (step c s).1 = next_closure s.1
             ∧ built (step c s).1 = built s.1
             ∧ queue (step c s).1 = queue s.1)
  (* a kernel entry point *)
  ∨ (∃ d post, (step c s).2 = s.2 ++ [d]
               ∧ d_program d = next_closure s.1
               ∧ __code__ (step c s).1
                 = (__code__ s.1 +:+ nl) +:+ kernel_header (d_name d) +:+ post
               ∧ programs (step c s).1
                 = delete (next_closure s.1) (programs s.1)
               ∧ next_closure (step c s).1 = S (next_closure s.1)
               ∧ built (step c s).1 = built s.1
               ∧ queue (step c s).1 = queue s.1)
  (* a call *)
  ∨ (∃ self n call_args p,
       self ∈ s.2 ∧ (step c s).2 = s.2
       ∧ __code__ (step c s).1 = __code__ s.1
       ∧ next_closure (step c s).1 = next_closure s.1
       ∧ queue (step c s).1 = queue s.1 ++ [kernel_call self n p call_args]
       ∧ ((programs s.1 !! d_program self = Some p
           ∧ programs (step c s).1 = programs s.1
           ∧ built (step c s).1 = built s.1)
          ∨ (programs s.1 !! d_program self = None
             ∧ p = {| source := __code__ s.1 |}
             ∧ programs (step c s).1 = <[d_program self := p]> (programs s.1)
             ∧ built (step c s).1 = built s.1 ++ [(d_program self, p)]))).
Proof.
  destruct s as [st ds]. destruct c as [f|f|d i call_args]; cbn [Kernel.step].
  - rewrite (kernel_function_cases dtype_to_ctype).
    destruct (_get_signature f) as [[s r]|]; [|by left].
    destruct (_get_annotation_as_cltype _ r true); [|by left].
    destruct (render_parameters _ s true); [|by left].
    right; left. eexists. by cbn.
  - rewrite (kernel_main_cases dtype_to_ctype).
    destruct (_get_signature f) as [[s r]|]; [|by left].
    destruct (negb (is_empty r)); [by left|].
    destruct (render_parameters _ s false) as [ps|]; [|by left].
    right; right; left. eexists _, _. cbn [fst snd].
    split; [reflexivity|]. cbn [d_program d_name __code__ programs
      next_closure built queue].
    split; [done|]. split; [|done].
    unfold kernel_header. rewrite !append_assoc. reflexivity.
  - destruct (ds !! d) as [self|] eqn:Hself; [|by left].
    rewrite dispatch_call_cases. cbn zeta. cbn [__getitem__ dc_self].
    assert (Hin : self ∈ ds) by (eapply list_elem_of_lookup_2, Hself).
    destruct (programs st !! d_program self) as [p|] eqn:Hp.
    + right; right; right. eexists self, _, call_args, p. cbn.
      repeat split; eauto.
    + destruct (build_ok _); [|by left].
      right; right; right. eexists self, _, call_args, _. cbn.
      repeat split; eauto 10.
Qed.

Lemma run_end cs c : run (cs ++ [c]) = step c (run cs).
Proof. unfold Kernel.run. by rewrite foldl_app. Qed.

(** X20: [__code__] only grows, and a program is a snapshot of it: in
    every session [__code__] starts with the prelude, a further command
    leaves the text so far as a prefix, and the source of every program
    built is a prefix of [__code__]. *)
Theorem code_is_append_only cs :
  (∃ text, __code__ (run cs).1 = prelude +:+ text)
  ∧ (∀ c, ∃ text, __code__ (run (cs ++ [c])).1
                  = __code__ (run cs).1 +:+ text)
  ∧ (∀ k p, (k, p) ∈ built (run cs).1 →
            ∃ text, __code__ (run cs).1 = source p +:+ text).
Proof.
  assert (Hstep : ∀ c s, ∃ text, __code__ (step c s).1 = __code__ s.1 +:+ text).
  { intros c s.
    destruct (step_cases c s)
      as [-> | [(text & _ & -> & _) | [(d & post & _ & _ & -> & _)
         | (self & n & a & p & _ & _ & -> & _)]]].
    - exists "". by rewrite append_empty_r.
    - eauto.
    - eexists. by rewrite !append_assoc.
    - exists "". by rewrite append_empty_r. }
  split; [|split].
  - induction cs as [|c cs IH] using rev_ind; [by exists ""|].
    rewrite run_end. destruct IH as [text IH].
    destruct (Hstep c (run cs)) as [text' ->]. rewrite IH.
    eexists. by rewrite append_assoc.
  - intros c. rewrite run_end. apply Hstep.
  - induction cs as [|c cs IH] using rev_ind.
    { intros k p H. by apply elem_of_nil in H. }
    intros k p. rewrite run_end.
    destruct (Hstep c (run cs)) as [text Hcode].
    destruct (step_cases c (run cs))
      as [-> | [(? & _ & _ & _ & _ & Hb & _)
         | [(d & post & _ & _ & _ & _ & _ & Hb & _)
         | (self & n & a & p' & _ & _ & Hc & _ & _ &
            [(_ & _ & Hb) | (_ & -> & _ & Hb)])]]].
    + intros Hin. exact (IH _ _ Hin).
    + rewrite Hb, Hcode. intros Hin. destruct (IH _ _ Hin) as [t ->].
      eexists. by rewrite append_assoc.
    + rewrite Hb, Hcode. intros Hin. destruct (IH _ _ Hin) as [t ->].
      eexists. by rewrite append_assoc.
    + rewrite Hb, Hc. intros Hin. exact (IH _ _ Hin).
    + rewrite Hb, Hc. intros [Hin | Hin%list_elem_of_singleton]%elem_of_app.
      * exact (IH _ _ Hin).
      * injection Hin as -> ->. exists "". by rewrite append_empty_r.
Qed.

(** X21: every kernel call in the queue runs a program that declares
    its kernel.  In every session, whatever the order of declarations
    and calls: the kernel of every dispatcher is declared in [__code__]
    (the text holds [__kernel void <name>(]); a program kept by the
    closure of a dispatcher declares the kernel of that dispatcher; and
    the program of every call in the queue declares the kernel that the
    call names. *)
Theorem enqueued_program_declares_kernel cs :
  (∀ d, d ∈ (run cs).2 →
        contains (kernel_header (d_name d)) (__code__ (run cs).1))
  ∧ (∀ d p, d ∈ (run cs).2 →
            programs (run cs).1 !! d_program d = Some p →
            contains (kernel_header (d_name d)) (source p))
  ∧ (∀ e, e ∈ queue (run cs).1 →
          contains (kernel_header (e_kernel e)) (source (e_program e))).
Proof.
  induction cs as [|c cs (IHa & IHb & IHc)] using rev_ind.
  { repeat split; intros; by apply elem_of_nil in H. }
  rewrite run_end.
  destruct (step_cases c (run cs))
    as [-> | [(text & Hds & Hcode & Hprog & _ & _ & Hq)
       | [(d' & post & Hds & Hd' & Hcode & Hprog & _ & _ & Hq)
       | (self & n & a & p & Hself & Hds & Hcode & _ & Hq & Hcase)]]].
  - done.
  - rewrite Hds, Hcode, Hprog, Hq. split; [|done].
    intros d Hd. by apply contains_append, IHa.
  - rewrite Hds, Hcode, Hprog, Hq. split; [|split; [|done]].
    + intros d [Hd | ->%list_elem_of_singleton]%elem_of_app.
      * rewrite append_assoc. by apply contains_append, IHa.
      * by eexists _, _.
    + intros d p [Hd | ->%list_elem_of_singleton]%elem_of_app.
      * destruct (decide (d_program d = next_closure (run cs).1)) as [->|Hne];
          [by rewrite lookup_delete_eq|].
        rewrite lookup_delete_ne by done. by apply IHb.
      * by rewrite Hd', lookup_delete_eq.
  - rewrite Hds, Hcode, Hq.
    assert (Hp : contains (kernel_header (d_name self)) (source p)).
    { destruct Hcase as [(Hsome & _) | (_ & -> & _)]; [by eapply IHb|].
      by apply IHa. }
    split; [done|]. split.
    + intros d p' Hd.
      destruct Hcase as [(_ & -> & _) | (Hnone & -> & -> & _)];
        [by apply IHb|].
      destruct (decide (d_program d = d_program self)) as [->|Hne].
      * rewrite lookup_insert_eq. intros [= <-]. by apply IHa.
      * rewrite lookup_insert_ne by done. by apply IHb.
    + intros e [He | ->%list_elem_of_singleton]%elem_of_app; [by apply IHc|].
      done.
Qed.

(** X22: every kernel entry point has a closure of its own: in every
    session the dispatcher returned by the i-th successful [kernel_main]
    uses closure number i, so two dispatchers of a session never share
    their [program] variable. *)
Theorem dispatchers_have_own_closures cs :
  next_closure (run cs).1 = length (run cs).2
  ∧ (∀ i d, (run cs).2 !! i = Some d → d_program d = i)
  ∧ (∀ i j d d', (run cs).2 !! i = Some d → (run cs).2 !! j = Some d' →
                 i ≠ j → d_program d ≠ d_program d').
Proof.
  assert (H : next_closure (run cs).1 = length (run cs).2
              ∧ (∀ i d, (run cs).2 !! i = Some d → d_program d = i)).
  { induction cs as [|c cs [IH1 IH2]] using rev_ind.
    { split; [done|]. intros i d H. cbn in H. by rewrite lookup_nil in H. }
    rewrite run_end.
    destruct (step_cases c (run cs))
      as [-> | [(text & Hds & _ & _ & Hn & _)
         | [(d' & post & Hds & Hd' & _ & _ & Hn & _)
         | (self & n & a & p & _ & Hds & _ & Hn & _)]]].
    - done.
    - by rewrite Hds, Hn.
    - rewrite Hds, Hn, length_app. cbn. split; [lia|].
      intros i d Hi. apply lookup_app_Some in Hi as [Hi | [Hge Hi]];
        [by apply IH2|].
      apply list_lookup_singleton_Some in Hi as [Hi ->]. lia.
    - by rewrite Hds, Hn. }
  destruct H as [H1 H2]. split; [done|]. split; [done|].
  intros i j d d' Hi Hj Hne. rewrite (H2 _ _ Hi), (H2 _ _ Hj). done.
Qed.

(** X23: a call passes one kernel argument for each declared parameter
    that has an argument: arguments beyond the declared parameters are
    dropped without an error, and so are parameters beyond the
    arguments. *)
Theorem kernel_call_arguments (self : Dispatcher pyobj) n p
    (call_args extra : list (host_arg pyobj)) :
  length (e_args (kernel_call self n p call_args))
    = min (length call_args) (length (d_s self))
  ∧ (length (d_s self) ≤ length call_args →
     kernel_call self n p (call_args ++ extra)
     = kernel_call self n p call_args).
Proof.
  split.
  - cbn. by rewrite length_fmap, length_zip.
  - intros Hlen. unfold kernel_call. f_equal. f_equal.
    revert call_args Hlen. induction (d_s self) as [|kv s IH];
      intros [|a call_args] Hlen; cbn in *; try lia.
    + by destruct extra.
    + by destruct (a :: call_args ++ extra).
    + rewrite IH by lia. done.
Qed.

End SessionFacts.

(** ** Struct mirroring *)

Section StructFacts.
Import Kernel.
Context {pyobj : Type}.
Variable match_dtype_to_c_struct :
  string → list (string * annotation pyobj) → result (pyobj * string).

Variable get_or_register_dtype : string → pyobj → result pyobj.

Local Abbreviation mirror :=
  (kernel_struct match_dtype_to_c_struct get_or_register_dtype).

Lemma all_annotated_true (fields : list (string * annotation pyobj)) keys :
  all_annotated fields keys = OK true →
  ∀ k, k ∈ keys → is_public k = OK true → k ∈ fields.*1.
Proof.
  induction keys as [|k0 keys IH]; intros Hall k Hin Hpub.
  { by apply elem_of_nil in Hin. }
  cbn in Hall. destruct (is_public k0) as [pub|] eqn:Hk0; [|discriminate].
  cbn in Hall.
  destruct (pub && negb (bool_decide (k0 ∈ fields.*1))) eqn:Hc;
    [discriminate|].
  apply elem_of_cons in Hin as [->|Hin]; [|by apply IH].
  rewrite Hpub in Hk0. injection Hk0 as <-. cbn in Hc.
  apply negb_false_iff, bool_decide_eq_true in Hc. done.
Qed.

Lemma all_annotated_false (fields : list (string * annotation pyobj)) keys k :
  (∀ k', k' ∈ keys → k' ≠ "") →
  k ∈ keys → is_public k = OK true → k ∉ fields.*1 →
  all_annotated fields keys = OK false.
Proof.
  intros Hne Hin Hpub Hnot.
  induction keys as [|k0 keys IH]; [by apply elem_of_nil in Hin|].
  cbn. destruct k0 as [|c rest].
  { exfalso. apply (Hne ""); [left|done]. }
  cbn. destruct (negb (bool_decide (String c "" = "_"))
                 && negb (bool_decide (String c rest ∈ fields.*1))) eqn:Hc;
    [done|].
  apply IH.
  - intros k' Hk'. apply Hne. by right.
  - apply elem_of_cons in Hin as [->|Hin]; [|done].
    exfalso. cbn in Hpub. injection Hpub as Hpub. rewrite Hpub in Hc.
    by rewrite bool_decide_eq_false_2 in Hc.
Qed.

(** X24: [kernel_struct] checks the class before it writes anything.
    A class without annotations raises KeyError; a class with a public
    attribute (a key of its dictionary that does not start with an
    underscore) that has no annotation raises the assertion error; in
    both cases [__code__] is unchanged.  The registration of the name
    comes after the write: a call that raises either left the process
    as it was, or it raised in the registration, with the C declaration
    of the struct already appended to [__code__].  When the call
    returns, every public attribute is annotated, the result is the
    device layout of the annotated fields, the name was registered, and
    the C declaration has been appended to [__code__]. *)
Theorem kernel_struct_checks_class (cls : pyclass pyobj) (st : State pyobj) :
  (cls_annotations cls = None → mirror cls st = (Raise KeyError, st))
  ∧ (∀ fields k,
       cls_annotations cls = Some fields →
       (∀ k', k' ∈ cls_dict_keys cls → k' ≠ "") →
       k ∈ cls_dict_keys cls → is_public k = OK true → k ∉ fields.*1 →
       mirror cls st
       = (Raise (AssertionError
            "A public field was declared without annotation"), st))
  ∧ (∀ fields dtype cltype e,
       cls_annotations cls = Some fields →
       all_annotated fields (cls_dict_keys cls) = OK true →
       match_dtype_to_c_struct (cls_name cls) fields = OK (dtype, cltype) →
       get_or_register_dtype (cls_name cls) dtype = Raise e →
       ∃ st', mirror cls st = (Raise e, st')
              ∧ __code__ st' = __code__ st +:+ cltype)
  ∧ (∀ e st',
       mirror cls st = (Raise e, st') →
       st' = st
       ∨ ∃ fields dtype cltype,
           cls_annotations cls = Some fields
           ∧ match_dtype_to_c_struct (cls_name cls) fields
             = OK (dtype, cltype)
           ∧ get_or_register_dtype (cls_name cls) dtype = Raise e
           ∧ __code__ st' = __code__ st +:+ cltype
           ∧ programs st' = programs st ∧ queue st' = queue st)
  ∧ (∀ dtype st',
       mirror cls st = (OK dtype, st') →
       ∃ fields cltype,
         cls_annotations cls = Some fields
         ∧ (∀ k, k ∈ cls_dict_keys cls → is_public k = OK true →
                 k ∈ fields.*1)
         ∧ match_dtype_to_c_struct (cls_name cls) fields = OK (dtype, cltype)
         ∧ (∃ r, get_or_register_dtype (cls_name cls) dtype = OK r)
         ∧ __code__ st' = __code__ st +:+ cltype
         ∧ programs st' = programs st ∧ queue st' = queue st).
Proof.
  unfold kernel_struct.
  split; [by intros ->|]. split; [|split; [|split]].
  - intros fields k -> Hne Hin Hpub Hnot. unfold bind, lift.
    by rewrite (all_annotated_false fields _ k).
  - intros fields dtype cltype e -> Hall Hm Hreg. unfold bind, lift.
    rewrite Hall. cbn. rewrite Hm. cbn. rewrite Hreg.
    eexists. split; reflexivity.
  - intros e st'. destruct (cls_annotations cls) as [fields|];
      [|by intros [= _ <-]; left].
    unfold bind, lift.
    destruct (all_annotated fields _) as [[]|]; cbn;
      [|by intros [= _ <-]; left|by intros [= _ <-]; left].
    destruct (match_dtype_to_c_struct _ _) as [[dtype cltype]|] eqn:Hm; cbn;
      [|by intros [= _ <-]; left].
    destruct (get_or_register_dtype _ _) as [r|e'] eqn:Hreg; cbn;
      [discriminate|].
    intros [= <- <-]. right. by exists fields, dtype, cltype.
  - intros dtype st'. destruct (cls_annotations cls) as [fields|];
      [|discriminate].
    unfold bind, lift.
    destruct (all_annotated fields _) as [[]|] eqn:Hall; cbn;
      [|discriminate..].
    destruct (match_dtype_to_c_struct _ _) as [[dtype' cltype]|] eqn:Hm; cbn;
      [|discriminate].
    destruct (get_or_register_dtype _ _) as [r|e'] eqn:Hreg; cbn;
      [|discriminate].
    intros [= <- <-]. exists fields, cltype.
    split; [done|]. split; [by apply all_annotated_true|].
    split; [done|]. split; [by exists r|]. done.
Qed.

End StructFacts.

(** ** More on device memory *)

Section BufferFacts.
Import Memory Images.
Variable enqueue_fill_image :
  Image → np_value → nat * nat * nat → nat * nat * nat → M Device unit.

Local Abbreviation clear := (Memory.clear enqueue_fill_image).

(** X25: what [clear] does to a buffer, in full: if the value has a
    size that the fill accepts (a power of two up to 128 bytes) and is no
    longer than the buffer, the first bytes of the buffer become the
    bytes of the value and all other bytes, the live mappings and the
    size of the buffer stay as they are; otherwise the call raises and
    the device is unchanged. *)
Theorem clear_buffer_effect (b : Buffer) value dev old :
  memory dev !! b_mem b = Some old →
  (nbytes value ∈ [1; 2; 4; 8; 16; 32; 64; 128] →
   nbytes value ≤ length old →
   clear (OfBuffer b) value dev
   = (OK tt,
      {| memory := <[b_mem b := v_bytes value ++ drop (nbytes value) old]>
                   (memory dev);
         host_maps := host_maps dev; next_map := next_map dev |})
   ∧ length (v_bytes value ++ drop (nbytes value) old) = length old)
  ∧ (nbytes value ∉ [1; 2; 4; 8; 16; 32; 64; 128]
     ∨ length old < nbytes value →
     clear (OfBuffer b) value dev = (Raise (CLError "INVALID_VALUE"), dev)).
Proof.
  intros Hold. cbn. unfold enqueue_fill_buffer. rewrite Hold. split.
  - intros Hsize Hlen.
    assert (Hpos : nbytes value ≠ 0).
    { intros E. rewrite E in Hsize.
      repeat (apply elem_of_cons in Hsize as [Hsize|Hsize]; [lia|]).
      by apply elem_of_nil in Hsize. }
    rewrite (bool_decide_eq_true_2 _ Hsize).
    rewrite Nat.Div0.mod_0_l, Nat.Div0.mod_same.
    rewrite !bool_decide_eq_true_2 by (done || lia). cbn [andb].
    rewrite Nat.div_same by done. cbn. rewrite app_nil_r.
    unfold nbytes in *. rewrite firstn_all. split; [done|].
    rewrite length_app, length_drop. lia.
  - intros [Hsize | Hlen].
    + by rewrite (bool_decide_eq_false_2 _ Hsize).
    + destruct (bool_decide (nbytes value ∈ _)); [|done].
      destruct (bool_decide (0 `mod` _ = 0)); [|done].
      destruct (bool_decide (nbytes value `mod` _ = 0)); [|done].
      by rewrite bool_decide_eq_false_2 by lia.
Qed.

Lemma splice_region (old : list byte) offset size :
  offset + size ≤ length old →
  take offset old ++ take size (drop offset old)
    ++ drop (offset + length (take size (drop offset old))) old = old.
Proof.
  intros Hlen. rewrite length_take, length_drop.
  replace (size `min` (length old - offset)) with size by lia.
  by rewrite <- drop_drop, take_drop, take_drop.
Qed.

(** X26: mapping a buffer and releasing it without writing leaves the
    device memory and the other mappings as they were, and what the
    scope reads is the region of the buffer that starts at [b.offset]
    and has [b.size] bytes. *)
Theorem map_without_write (b : Buffer) dev old :
  memory dev !! b_mem b = Some old →
  b_offset b + b_size b ≤ length old →
  host_maps dev !! next_map dev = None →
  with_mapped (OfBuffer b) view_bytes dev
  = (OK (take (b_size b) (drop (b_offset b) old)),
     {| memory := memory dev; host_maps := host_maps dev;
        next_map := S (next_map dev) |}).
Proof.
  intros Hold Hlen Hfresh. unfold with_mapped.
  rewrite (enter_buffer b dev old Hold Hlen).
  unfold view_bytes at 1. cbn [host_maps]. rewrite lookup_insert_eq.
  cbn [mm_bytes]. unfold __exit__, release. cbn [self_mapped host_maps].
  rewrite lookup_insert_eq. cbn [memory mm_mem mm_offset mm_bytes].
  rewrite Hold, (splice_region old _ _ Hlen).
  rewrite insert_id by done. by rewrite delete_insert_id.
Qed.

(** X27: what the host writes through a mapped view reaches the
    buffer when the scope ends, and a later scope reads it back: after
    [with mapped(b) as m: m[:] = data] the mapped region of the buffer
    holds [data], the bytes around it are untouched, and a new mapping
    of [b] reads [data]. *)
Theorem mapped_write_read (b : Buffer) dev old data :
  memory dev !! b_mem b = Some old →
  b_offset b + b_size b ≤ length old →
  length data = b_size b →
  ∃ dev',
    with_mapped (OfBuffer b) (view_write data) dev = (OK tt, dev')
    ∧ memory dev' !! b_mem b
      = Some (take (b_offset b) old ++ data
              ++ drop (b_offset b + b_size b) old)
    ∧ (with_mapped (OfBuffer b) view_bytes dev').1 = OK data.
Proof.
  intros Hold Hlen Hdata.
  assert (Hfirst : ∃ dev',
    with_mapped (OfBuffer b) (view_write data) dev = (OK tt, dev')
    ∧ memory dev' !! b_mem b
      = Some (take (b_offset b) old ++ data
              ++ drop (b_offset b + b_size b) old)).
  { unfold with_mapped. rewrite (enter_buffer b dev old Hold Hlen).
    unfold view_write. cbn [host_maps]. rewrite lookup_insert_eq.
    cbn [mm_bytes mm_mem mm_offset mm_shape mm_dtype].
    rewrite bool_decide_eq_true_2.
    2:{ rewrite length_take, length_drop. lia. }
    unfold __exit__, release. cbn [self_mapped host_maps].
    rewrite lookup_insert_eq. cbn [memory mm_mem mm_offset mm_bytes].
    rewrite Hold. eexists. split; [reflexivity|]. cbn [memory].
    by rewrite lookup_insert_eq, Hdata. }
  destruct Hfirst as (dev' & Hw & Hmem). exists dev'.
  split; [done|]. split; [done|].
  unfold with_mapped. erewrite (enter_buffer b dev' _ Hmem).
  2:{ rewrite !length_app, length_take, length_drop. lia. }
  unfold view_bytes at 1. cbn [host_maps]. rewrite lookup_insert_eq.
  cbn [mm_bytes]. unfold __exit__, release. cbn [self_mapped host_maps].
  rewrite lookup_insert_eq. cbn [fst]. f_equal.
  rewrite drop_app_length' by (rewrite length_take; lia).
  rewrite take_app_length' by done. done.
Qed.

Lemma mapped_write_read_witness :
  memory device8 !! b_mem buffer8 = Some (replicate 8 xff)
  ∧ b_offset buffer8 + b_size buffer8 ≤ length (replicate 8 xff)
  ∧ length [x01; x02; x03; x04; x05; x06; x07; x08] = b_size buffer8
  ∧ ∃ dev',
      with_mapped (OfBuffer buffer8)
        (view_write [x01; x02; x03; x04; x05; x06; x07; x08]) device8
      = (OK tt, dev')
      ∧ memory dev' !! b_mem buffer8
        = Some (take (b_offset buffer8) (replicate 8 xff)
                ++ [x01; x02; x03; x04; x05; x06; x07; x08]
                ++ drop (b_offset buffer8 + b_size buffer8) (replicate 8 xff))
      ∧ (with_mapped (OfBuffer buffer8) view_bytes dev').1
        = OK [x01; x02; x03; x04; x05; x06; x07; x08].
Proof.
  assert (H1 : memory device8 !! b_mem buffer8 = Some (replicate 8 xff))
    by reflexivity.
  assert (H2 : b_offset buffer8 + b_size buffer8 ≤ length (replicate 8 xff)).
  { cbn. constructor. }
  assert (H3 : length [x01; x02; x03; x04; x05; x06; x07; x08]
               = b_size buffer8) by reflexivity.
  split; [exact H1|]. split; [exact H2|]. split; [exact H3|].
  exact (mapped_write_read buffer8 device8 _ _ H1 H2 H3).
Defined.

Lemma map_without_write_witness :
  memory device8 !! b_mem buffer8 = Some (replicate 8 xff)
  ∧ b_offset buffer8 + b_size buffer8 ≤ length (replicate 8 xff)
  ∧ host_maps device8 !! next_map device8 = None
  ∧ with_mapped (OfBuffer buffer8) view_bytes device8
    = (OK (take (b_size buffer8) (drop (b_offset buffer8) (replicate 8 xff))),
       {| memory := memory device8; host_maps := host_maps device8;
          next_map := S (next_map device8) |}).
Proof.
  assert (H1 : memory device8 !! b_mem buffer8 = Some (replicate 8 xff))
    by reflexivity.
  assert (H2 : b_offset buffer8 + b_size buffer8 ≤ length (replicate 8 xff)).
  { cbn. constructor. }
  assert (H3 : host_maps device8 !! next_map device8 = None) by reflexivity.
  split; [exact H1|]. split; [exact H2|]. split; [exact H3|].
  exact (map_without_write buffer8 device8 _ H1 H2 H3).
Defined.

(** X28: a target that cannot be mapped: when [__enter__] raises, the
    body of the scope does not run and the device is unchanged.  This is
    what happens for a buffer whose [offset] and [size] do not fit in
    its memory (a buffer with a non-zero [offset] and [size] bytes of
    memory among them, since the region mapped starts at [b.offset]),
    and for an image whose channel type or channel order is not in the
    tables of the module, which is a KeyError. *)
Theorem unmappable_target {T} (b : target) (body : nat → M Device T) dev :
  (∀ e dev1, __enter__ (mapped b) dev = (Raise e, dev1) →
             dev1 = dev ∧ with_mapped b body dev = (Raise e, dev))
  ∧ (∀ buf bytes, b = OfBuffer buf → memory dev !! b_mem buf = Some bytes →
       length bytes < b_offset buf + b_size buf →
       with_mapped b body dev = (Raise (CLError "INVALID_VALUE"), dev))
  ∧ (∀ img, b = OfImage img →
       __CHANNEL_TYPE_TO_DTYPE__ (channel_data_type img) = Raise KeyError
       ∨ __CHANNEL_ORDER_TO_COMPONENTS__ (channel_order_of img) = Raise KeyError →
       with_mapped b body dev = (Raise KeyError, dev)).
Proof.
  assert (Hregion : ∀ mem offset shape dtype e dev1,
            map_region mem offset shape dtype dev = (Raise e, dev1) →
            dev1 = dev).
  { intros mem offset shape dtype e dev1. unfold map_region.
    destruct (memory dev !! mem); [|by intros [= _ <-]].
    destruct (bool_decide _); [discriminate|by intros [= _ <-]]. }
  assert (Henter : ∀ e dev1, __enter__ (mapped b) dev = (Raise e, dev1) →
                             dev1 = dev).
  { intros e dev1. unfold __enter__, bind, lift, ret. cbn [mapped ctx_b].
    destruct b as [b|b|b].
    - unfold enqueue_map_buffer.
      destruct (map_region _ _ _ _ dev) as [[m|e'] dev0] eqn:Hmap;
        [discriminate|].
      intros [= _ <-]. by eapply Hregion.
    - destruct (__CHANNEL_TYPE_TO_DTYPE__ _); [|by intros [= _ <-]].
      destruct (__CHANNEL_ORDER_TO_COMPONENTS__ _); [|by intros [= _ <-]].
      unfold enqueue_map_image.
      destruct (map_region _ _ _ _ dev) as [[m|e'] dev0] eqn:Hmap;
        [discriminate|].
      intros [= _ <-]. by eapply Hregion.
    - unfold enqueue_map_buffer.
      destruct (map_region _ _ _ _ dev) as [[m|e'] dev0] eqn:Hmap;
        [discriminate|].
      intros [= _ <-]. by eapply Hregion. }
  split; [|split].
  - intros e dev1 He. pose proof (Henter _ _ He) as ->. split; [done|].
    unfold with_mapped. by rewrite He.
  - intros buf bytes -> Hmem Hlen. unfold with_mapped, __enter__, bind.
    cbn [mapped ctx_b]. unfold enqueue_map_buffer, map_region.
    rewrite Hmem. cbn [product foldr]. 
    rewrite bool_decide_eq_false_2; [done|]. cbn. lia.
  - intros img -> Hkey. unfold with_mapped, __enter__, bind, lift.
    cbn [mapped ctx_b]. destruct Hkey as [-> | Hkey]; [done|].
    destruct (channel_data_type img); cbn; by rewrite ?Hkey.
Qed.

End BufferFacts.

Section ImageFacts.
Import Memory Images.
Variable format_supported : channel_order → channel_type → bool.
Variable garbage : nat → byte.

Local Abbreviation create_image2d :=
  (Images.create_image2d format_supported garbage).

(** X29: the shape of the view that [mapped] asks for, by the type of
    the image: a 2D image is mapped as (height, width, channels) and a
    3D image as (depth, height, width, channels), without the channel
    axis when the format has one channel; a 1D image, whose type code
    is above those of the 2D and 3D types, keeps all of depth, height
    and width. *)
Theorem image_shape_by_type (b : Image) (cmps : nat) :
  cmps ≠ 1 →
  (type b = IMAGE2D →
   image_shape b cmps = [height b; width b; cmps]
   ∧ image_shape b 1 = [height b; width b])
  ∧ (type b = IMAGE3D →
     image_shape b cmps = [depth b; height b; width b; cmps]
     ∧ image_shape b 1 = [depth b; height b; width b])
  ∧ (type b = IMAGE1D →
     image_shape b cmps = [depth b; height b; width b; cmps]
     ∧ image_shape b 1 = [depth b; height b; width b]).
Proof.
  intros Hc. unfold image_shape.
  rewrite (bool_decide_eq_false_2 (cmps = 1)) by done.
  split; [|split]; intros Ht; rewrite Ht; split; reflexivity.
Qed.

Lemma image_shape_by_type_witness :
  3 ≠ 1
  ∧ image_shape {| i_mem := 0; channel_order_of := ORDER_RGB;
                   channel_data_type := FLOAT; type := IMAGE1D;
                   width := 16; height := 0; depth := 0 |} 3
    = [0; 0; 16; 3].
Proof.
  assert (H : 3 ≠ 1) by discriminate.
  split; [exact H|].
  exact (proj1 (proj2 (proj2 (image_shape_by_type
           {| i_mem := 0; channel_order_of := ORDER_RGB;
              channel_data_type := FLOAT; type := IMAGE1D;
              width := 16; height := 0; depth := 0 |} 3 H)) eq_refl)).
Defined.

Lemma image_shape_2d (b : Image) (cmps : nat) :
  type b = IMAGE2D →
  image_shape b cmps
  = if bool_decide (cmps = 1) then [height b; Memory.width b]
    else [height b; Memory.width b; cmps].
Proof.
  intros Ht. unfold image_shape. rewrite Ht. by destruct (bool_decide _).
Qed.

(** X30: [create_image2d] accepts exactly the dtypes that
    [get_valid_image_formats] lists and raises the assertion error for
    any other, leaving the device as it was.  An image it returns is a
    2D image of the width and height asked for, and [mapped] can map it:
    the tables of channel types and channel orders cover its format, the
    view has shape (height, width, channels), or (height, width) for the
    one-channel format, its elements are [float32], or [int8] for the
    RGBA pixel type, and it covers all the bytes of the image. *)
Theorem created_image_can_be_mapped width height (d : pixel_dtype) dev :
  (d ∉ get_valid_image_formats →
   create_image2d width height d dev
   = (Raise (AssertionError "Unsupported dtype for image format"), dev))
  ∧ (∀ img dev',
       create_image2d width height d dev = (OK img, dev') →
       d ∈ get_valid_image_formats
       ∧ type img = IMAGE2D
       ∧ Memory.width img = width ∧ Memory.height img = height
       ∧ image_view img
         = OK (match d with
               | px_float32 => [height; width]
               | px_float2 => [height; width; 2]
               | px_float3 => [height; width; 3]
               | _ => [height; width; 4]
               end,
               match d with px_RGBA => np_int8 | _ => np_float32 end)
       ∧ ∃ bytes mgr dev1,
           memory dev' !! i_mem img = Some bytes
           ∧ __enter__ (mapped (OfImage img)) dev'
             = (OK (mgr, next_map dev'), dev1)
           ∧ view_bytes (next_map dev') dev1 = (OK bytes, dev1)).
Proof.
  split.
  - intros Hd. unfold Images.create_image2d.
    destruct d; try done; exfalso; apply Hd; unfold get_valid_image_formats;
      set_solver.
  - intros img dev'. unfold Images.create_image2d.
    destruct (__IMAGE_FORMATS__ d) as [format|] eqn:Hfmt; [|discriminate].
    unfold cl_Image. case_bool_decide as Hsize; [discriminate|].
    destruct (negb _); [discriminate|]. intros [= <- <-].
    assert (Hvalid : d ∈ get_valid_image_formats).
    { destruct d; try discriminate; unfold get_valid_image_formats;
        set_solver. }
    split; [done|]. split; [done|]. split; [done|]. split; [done|].
    assert (Hview : ∃ shape t,
      image_view {| i_mem := fresh (dom (memory dev));
                    channel_order_of := format.1;
                    channel_data_type := format.2; type := IMAGE2D;
                    Memory.width := width; Memory.height := height;
                    depth := 0 |}
      = OK (shape, t)
      ∧ shape = match d with
                | px_float32 => [height; width]
                | px_float2 => [height; width; 2]
                | px_float3 => [height; width; 3]
                | _ => [height; width; 4]
                end
      ∧ t = match d with px_RGBA => np_int8 | _ => np_float32 end
      ∧ product shape * itemsize t
        = width * height * channels format.1 * channel_bytes format.2).
    { destruct d; try discriminate; injection Hfmt as <-;
        eexists _, _; (split; [reflexivity|]);
        (split; [rewrite image_shape_2d by done;
                 by rewrite ?bool_decide_eq_false_2, ?bool_decide_eq_true_2
                   by done|]);
        (split; [done|]);
        rewrite image_shape_2d by done;
        rewrite ?bool_decide_eq_false_2, ?bool_decide_eq_true_2 by done;
        cbn; nia. }
    destruct Hview as (shape & t & Hview & -> & -> & Hbytes).
    split; [exact Hview|].
    eexists _, _, _. cbn [memory i_mem]. split; [apply lookup_insert_eq|].
    revert Hview. unfold image_view, __enter__, bind, lift, ret.
    cbn [mapped ctx_b channel_data_type channel_order_of].
    destruct (__CHANNEL_TYPE_TO_DTYPE__ format.2) as [t'|]; [|discriminate].
    cbn [mbind result_bind].
    destruct (__CHANNEL_ORDER_TO_COMPONENTS__ format.1) as [c'|];
      [|discriminate].
    cbn [mbind result_bind]. intros [= Hshape ->].
    unfold enqueue_map_image, map_region. cbn [memory i_mem].
    rewrite lookup_insert_eq, Hshape, Hbytes.
    rewrite bool_decide_eq_true_2 by (rewrite length_fmap, length_seq; lia).
    split; [reflexivity|].
    unfold view_bytes. cbn [host_maps next_map]. rewrite lookup_insert_eq.
    cbn [mm_bytes]. rewrite drop_0, take_ge; [done|].
    rewrite length_fmap, length_seq. lia.
Qed.

End ImageFacts.

(** ** The further theorems at work on concrete inputs *)

Section MoreInstances.
Import Kernel Memory Images.

Lemma render_parameters_agree_witness :
  render_parameters registered_ctype
    [("x", {| name := "x"; p_annotation := AObj t_float32 |})] true
  = OK "float x"
  ∧ render_parameters registered_ctype
      [("x", {| name := "x"; p_annotation := AObj t_float32 |})] false
    = OK "float x".
Proof.
  assert (H : render_parameters registered_ctype
                [("x", {| name := "x"; p_annotation := AObj t_float32 |})] true
              = OK "float x") by reflexivity.
  split; [exact H|].
  exact (render_parameters_agree registered_ctype _ _ H).
Defined.

Lemma failure_changes_nothing_witness :
  kernel_main registered_ctype void_kernel iota_declared.2
  = (Raise (AssertionError "Kernel main function must return void"),
     (kernel_main registered_ctype void_kernel iota_declared.2).2)
  ∧ (kernel_main registered_ctype void_kernel iota_declared.2).2
    = iota_declared.2
  ∧ programs iota_declared.2 !! d_program iota_dispatcher = None
  ∧ dispatch_call (fun _ => false)
      (__getitem__ iota_dispatcher (Tuple [3; 4]%Z)) iota_args iota_declared.2
    = (Raise (CLError "clBuildProgram failed"), iota_declared.2).
Proof.
  assert (H1 : kernel_main registered_ctype void_kernel iota_declared.2
    = (Raise (AssertionError "Kernel main function must return void"),
       (kernel_main registered_ctype void_kernel iota_declared.2).2))
    by reflexivity.
  assert (H2 : programs iota_declared.2 !! d_program iota_dispatcher = None)
    by reflexivity.
  split; [exact H1|].
  split; [exact (proj1 (proj2 (failure_changes_nothing registered_ctype
                   (fun _ => false) _)) _ _ _ H1)|].
  split; [exact H2|].
  exact (proj2 (proj2 (failure_changes_nothing registered_ctype
           (fun _ => false) ValueError))
           (__getitem__ iota_dispatcher (Tuple [3; 4]%Z)) iota_args
           iota_declared.2 H2 eq_refl).
Defined.

Lemma declarations_need_annotations_witness :
  {| name := "x"; p_annotation := Empty |}
    ∈ parameters {| __name__ := "f";
                    parameters := [ {| name := "x"; p_annotation := Empty |} ];
                    return_annotation := @Empty host_dtype;
                    getdoc := None |}
  ∧ kernel_main registered_ctype
      {| __name__ := "f";
         parameters := [ {| name := "x"; p_annotation := Empty |} ];
         return_annotation := Empty; getdoc := None |} (init host_dtype)
    = (Raise (AssertionError
         "All arguments needs to be annotated with a type descriptor"),
       init host_dtype).
Proof.
  assert (H : {| name := "x"; p_annotation := Empty |}
    ∈ parameters {| __name__ := "f";
                    parameters := [ {| name := "x"; p_annotation := Empty |} ];
                    return_annotation := @Empty host_dtype;
                    getdoc := None |}).
  { apply elem_of_cons. by left. }
  split; [exact H|].
  exact (proj2 (declarations_need_annotations registered_ctype _ _
                  (init host_dtype) H eq_refl)).
Defined.

Lemma pointer_annotations_checked_witness :
  {| name := "out"; p_annotation := AList [AObj t_float32] |}
    ∈ parameters fill_kernel
  ∧ ∃ e, kernel_function (T := unit) registered_ctype fill_kernel
           (init host_dtype)
         = (Raise e, init host_dtype).
Proof.
  assert (H : {| name := "out"; p_annotation := AList [AObj t_float32] |}
              ∈ parameters fill_kernel).
  { apply elem_of_cons. by left. }
  split; [exact H|].
  refine (proj1 (pointer_annotations_checked registered_ctype fill_kernel _
                   (init host_dtype) H) (AObj t_float32) eq_refl _).
  intros s. discriminate.
Defined.

Lemma code_is_append_only_witness :
  (0, {| source := __code__ fill_declared.2 |})
    ∈ built (run registered_ctype (fun _ => true)
               [DeclareKernel fill_kernel; Call 0 (Int 12) []]).1
  ∧ ∃ text,
      __code__ (run registered_ctype (fun _ => true)
                  [DeclareKernel fill_kernel; Call 0 (Int 12) []]).1
      = source {| source := __code__ fill_declared.2 |} +:+ text.
Proof.
  assert (H : (0, {| source := __code__ fill_declared.2 |})
    ∈ built (run registered_ctype (fun _ => true)
               [DeclareKernel fill_kernel; Call 0 (Int 12) []]).1).
  { apply elem_of_cons. by left. }
  split; [exact H|].
  exact (proj2 (proj2 (code_is_append_only registered_ctype (fun _ => true)
                         _)) _ _ H).
Defined.

Lemma enqueued_program_declares_kernel_witness :
  kernel_call fill_dispatcher 12 {| source := __code__ fill_declared.2 |} []
    ∈ queue (run registered_ctype (fun _ => true)
               [DeclareKernel fill_kernel; Call 0 (Int 12) []]).1
  ∧ contains (kernel_header "fill") (__code__ fill_declared.2).
Proof.
  assert (H : kernel_call fill_dispatcher 12
                {| source := __code__ fill_declared.2 |} []
    ∈ queue (run registered_ctype (fun _ => true)
               [DeclareKernel fill_kernel; Call 0 (Int 12) []]).1).
  { apply elem_of_cons. by left. }
  split; [exact H|].
  exact (proj2 (proj2 (enqueued_program_declares_kernel registered_ctype
                         (fun _ => true) _)) _ H).
Defined.

Lemma dispatchers_have_own_closures_witness :
  (run registered_ctype (fun _ => true)
     [DeclareKernel fill_kernel; DeclareKernel void_kernel;
      DeclareKernel negate_kernel]).2 !! 0 = Some fill_dispatcher
  ∧ (run registered_ctype (fun _ => true)
       [DeclareKernel fill_kernel; DeclareKernel void_kernel;
        DeclareKernel negate_kernel]).2 !! 1
    = Some {| d_name := "negate";
              d_s := (fun v => (name v, v)) <$> parameters negate_kernel;
              d_program := 1 |}
  ∧ 0 ≠ 1
  ∧ d_program fill_dispatcher
    ≠ d_program {| d_name := "negate";
                   d_s := (fun v => (name v, v)) <$> parameters negate_kernel;
                   d_program := 1 |}.
Proof.
  assert (H0 : (run registered_ctype (fun _ => true)
     [DeclareKernel fill_kernel; DeclareKernel void_kernel;
      DeclareKernel negate_kernel]).2 !! 0 = Some fill_dispatcher)
    by reflexivity.
  assert (H1 : (run registered_ctype (fun _ => true)
       [DeclareKernel fill_kernel; DeclareKernel void_kernel;
        DeclareKernel negate_kernel]).2 !! 1
    = Some {| d_name := "negate";
              d_s := (fun v => (name v, v)) <$> parameters negate_kernel;
              d_program := 1 |}) by reflexivity.
  assert (Hne : 0 ≠ 1) by discriminate.
  split; [exact H0|]. split; [exact H1|]. split; [exact Hne|].
  exact (proj2 (proj2 (dispatchers_have_own_closures registered_ctype
                         (fun _ => true) _)) _ _ _ _ H0 H1 Hne).
Defined.

Lemma kernel_call_arguments_witness :
  length (d_s fill_dispatcher)
    ≤ length [ArrayArg {| data := 7; host_copy := t_float32 |}; IntArg 3]
  ∧ kernel_call fill_dispatcher 12 {| source := "" |}
      ([ArrayArg {| data := 7; host_copy := t_float32 |}; IntArg 3]
       ++ [IntArg 5])
    = kernel_call fill_dispatcher 12 {| source := "" |}
        [ArrayArg {| data := 7; host_copy := t_float32 |}; IntArg 3].
Proof.
  assert (H : length (d_s fill_dispatcher)
    ≤ length [ArrayArg {| data := 7; host_copy := t_float32 |}; IntArg 3]).
  { cbn. constructor. }
  split; [exact H|].
  exact (proj2 (kernel_call_arguments fill_dispatcher 12 {| source := "" |}
                  _ [IntArg 5]) H).
Defined.

Lemma kernel_struct_checks_class_witness :
  kernel_struct particle_layout registry_free particle_class (init host_dtype)
  = (OK dt_float4x4,
     (kernel_struct particle_layout registry_free particle_class
        (init host_dtype)).2)
  ∧ (∃ fields cltype,
      cls_annotations particle_class = Some fields
      ∧ (∀ k, k ∈ cls_dict_keys particle_class → is_public k = OK true →
              k ∈ fields.*1)
      ∧ particle_layout (cls_name particle_class) fields
        = OK (dt_float4x4, cltype)
      ∧ (∃ r, registry_free (cls_name particle_class) dt_float4x4 = OK r)
      ∧ __code__ (kernel_struct particle_layout registry_free particle_class
                    (init host_dtype)).2
        = __code__ (init host_dtype) +:+ cltype
      ∧ programs (kernel_struct particle_layout registry_free particle_class
                    (init host_dtype)).2 = programs (init host_dtype)
      ∧ queue (kernel_struct particle_layout registry_free particle_class
                 (init host_dtype)).2 = queue (init host_dtype))
  ∧ ∃ st', kernel_struct particle_layout registry_taken particle_class
             (init host_dtype)
           = (Raise (Exception "RuntimeError"),
              st')
           ∧ __code__ st'
             = __code__ (init host_dtype) +:+
               "typedef struct { float4 position; float mass; } Particle;".
Proof.
  assert (H : kernel_struct particle_layout registry_free particle_class
                (init host_dtype)
    = (OK dt_float4x4,
       (kernel_struct particle_layout registry_free particle_class
          (init host_dtype)).2))
    by reflexivity.
  split; [exact H|]. split.
  - exact (proj2 (proj2 (proj2 (proj2
      (kernel_struct_checks_class particle_layout registry_free
         particle_class (init host_dtype))))) _ _ H).
  - exact (proj1 (proj2 (proj2
      (kernel_struct_checks_class particle_layout registry_taken
         particle_class (init host_dtype))))
      _ _ _ _ eq_refl eq_refl eq_refl eq_refl).
Defined.

Lemma unmappable_target_witness :
  memory device8 !! b_mem {| b_mem := 0; b_offset := 4; b_size := 8 |}
  = Some (replicate 8 xff)
  ∧ length (replicate 8 xff)
    < b_offset {| b_mem := 0; b_offset := 4; b_size := 8 |}
      + b_size {| b_mem := 0; b_offset := 4; b_size := 8 |}
  ∧ with_mapped (OfBuffer {| b_mem := 0; b_offset := 4; b_size := 8 |})
      failing_use device8
    = (Raise (CLError "INVALID_VALUE"), device8).
Proof.
  assert (H1 : memory device8
                 !! b_mem {| b_mem := 0; b_offset := 4; b_size := 8 |}
               = Some (replicate 8 xff)) by reflexivity.
  assert (H2 : length (replicate 8 xff)
    < b_offset {| b_mem := 0; b_offset := 4; b_size := 8 |}
      + b_size {| b_mem := 0; b_offset := 4; b_size := 8 |}).
  { cbn. repeat constructor. }
  split; [exact H1|]. split; [exact H2|].
  exact (proj1 (proj2 (unmappable_target _ failing_use device8))
           _ _ eq_refl H1 H2).
Defined.

Lemma created_image_can_be_mapped_witness :
  create_image2d (fun _ _ => true) (fun _ => x00) 4 2 px_RGBA device8
  = (OK {| i_mem := 1; channel_order_of := ORDER_BGRA;
           channel_data_type := UNORM_INT8; type := IMAGE2D;
           width := 4; height := 2; depth := 0 |},
     (create_image2d (fun _ _ => true) (fun _ => x00) 4 2 px_RGBA device8).2)
  ∧ image_view {| i_mem := 1; channel_order_of := ORDER_BGRA;
                  channel_data_type := UNORM_INT8; type := IMAGE2D;
                  width := 4; height := 2; depth := 0 |}
    = OK ([2; 4; 4], np_int8).
Proof.
  assert (H : create_image2d (fun _ _ => true) (fun _ => x00) 4 2 px_RGBA
                device8
    = (OK {| i_mem := 1; channel_order_of := ORDER_BGRA;
             channel_data_type := UNORM_INT8; type := IMAGE2D;
             width := 4; height := 2; depth := 0 |},
       (create_image2d (fun _ _ => true) (fun _ => x00) 4 2 px_RGBA
          device8).2)) by reflexivity.
  split; [exact H|].
  exact (proj1 (proj2 (proj2 (proj2 (proj2
           (proj2 (created_image_can_be_mapped (fun _ _ => true)
                     (fun _ => x00) 4 2 px_RGBA device8) _ _ H)))))).
Defined.

Lemma clear_buffer_effect_witness :
  memory device8 !! b_mem buffer8 = Some (replicate 8 xff)
  ∧ nbytes float32_zero ∈ [1; 2; 4; 8; 16; 32; 64; 128]
  ∧ nbytes float32_zero ≤ length (replicate 8 xff)
  ∧ clear (fun _ _ _ _ => ret tt) (OfBuffer buffer8) float32_zero device8
    = (OK tt,
       {| memory := <[b_mem buffer8 :=
                        v_bytes float32_zero
                        ++ drop (nbytes float32_zero) (replicate 8 xff)]>
                    (memory device8);
          host_maps := host_maps device8; next_map := next_map device8 |}).
Proof.
  assert (H1 : memory device8 !! b_mem buffer8 = Some (replicate 8 xff))
    by reflexivity.
  assert (H2 : nbytes float32_zero ∈ [1; 2; 4; 8; 16; 32; 64; 128]).
  { cbn. do 2 (apply elem_of_cons; right). apply elem_of_cons. by left. }
  assert (H3 : nbytes float32_zero ≤ length (replicate 8 xff)).
  { cbn. repeat constructor. }
  split; [exact H1|]. split; [exact H2|]. split; [exact H3|].
  exact (proj1 (proj1 (clear_buffer_effect (fun _ _ _ _ => ret tt) buffer8 float32_zero
                          device8 _ H1)
                  H2 H3)).
Defined.

End MoreInstances.
